(** * CloudFilesProvider: a shallow embedding of
      src/lib/platform/windows/CloudFilesProvider/CloudFilesProvider.{h,cpp}

    The provider bridges the Windows Cloud Files host (cfapi) to an
    application fetch source.  The model has two layers.

    - The member functions that run on the caller's thread
      (RegisterSyncRoot, UnregisterSyncRoot, CreatePlaceholder, HydrateFile,
      SetInSyncState, SetPinState, ...) are functions from the provider
      object and the host's answers to a returned value, the provider
      object afterwards and the list of host calls made, in program order.
    - The worker thread started by Initialize, the producers (OnFetchData)
      and Shutdown are a transition system: one [Action] is one atomic
      step of one thread, a schedule is a list of actions. *)

From Stdlib Require Import ZArith List String Bool Lia Ascii.
From Stdlib Require Import Strings.Byte.
Import ListNotations.
Local Open Scope string_scope.
Local Open Scope list_scope.
Local Open Scope Z_scope.

(** ** Windows scalar types *)

(** std::wstring.  Paths are only copied, concatenated and compared. *)
Definition wstring := string.
Definition BYTE := byte.
(** DWORD: 32 bits, unsigned. *)
Definition DWORD := Z.
(** HRESULT, NTSTATUS: 32 bits, signed. *)
Definition HRESULT := Z.
Definition NTSTATUS := Z.
Definition HANDLE := Z.
Definition CF_CONNECTION_KEY := Z.
Definition CF_TRANSFER_KEY := Z.
(** LARGE_INTEGER, through its QuadPart. *)
Definition LARGE_INTEGER := Z.
(** double, as its IEEE-754 binary64 bit pattern. *)
Definition double := Z.
(** The literal 1.0. *)
Definition double_1_0 : double := 0x3FF0000000000000.

(** static_cast<DWORD>(x) for an unsigned x. *)
Definition to_DWORD (x : Z) : DWORD := x mod 2 ^ 32.
(** (HRESULT)(x): reinterpretation of 32 bits as a signed value. *)
Definition to_HRESULT (x : Z) : HRESULT :=
  let m := x mod 2 ^ 32 in if m <? 2 ^ 31 then m else m - 2 ^ 32.

(** winerror.h, winnt.h, handleapi.h *)
Definition S_OK : HRESULT := 0.
Definition E_OUTOFMEMORY : HRESULT := to_HRESULT 0x8007000E.
Definition E_FAIL : HRESULT := to_HRESULT 0x80004005.
Definition STATUS_SUCCESS : NTSTATUS := 0.
Definition ERROR_ALREADY_EXISTS : DWORD := 183.
Definition ERROR_FILE_NOT_FOUND : DWORD := 2.
Definition FACILITY_WIN32 : Z := 7.
Definition INVALID_HANDLE_VALUE : HANDLE := -1.
Definition sizeof_WCHAR : Z := 2.

Definition FAILED (hr : HRESULT) : bool := hr <? 0.

(** winerror.h:
    [(HRESULT)(x) <= 0 ? (HRESULT)(x)
       : (HRESULT)(((x) & 0x0000FFFF) | (FACILITY_WIN32 << 16) | 0x80000000)] *)
Definition HRESULT_FROM_WIN32 (x : DWORD) : HRESULT :=
  if to_HRESULT x <=? 0 then to_HRESULT x
  else to_HRESULT
         (Z.lor (Z.lor (Z.land x 0x0000FFFF) (Z.shiftl FACILITY_WIN32 16))
                0x80000000).

(** What the build and cfapi.h fix and the two source files do not show:
    the two invalid-key sentinels, the width of size_t and
    std::hash<std::wstring>. *)
Class Platform := {
  CF_CONNECTION_KEY_INVALID : CF_CONNECTION_KEY;
  CF_TRANSFER_KEY_INVALID : CF_TRANSFER_KEY;
  sizeof_size_t : nat;
  hasher : wstring -> Z
}.

(** ** cfapi.h structures, with the fields the source reads or writes *)

Inductive CF_OPERATION_TYPE :=
| CF_OPERATION_TYPE_TRANSFER_DATA
| CF_OPERATION_TYPE_ACK_DATA.

Record CF_OPERATION_INFO := {
  op_Type : CF_OPERATION_TYPE;
  op_ConnectionKey : CF_CONNECTION_KEY;
  op_TransferKey : CF_TRANSFER_KEY
}.

(** CF_OPERATION_PARAMETERS::TransferData.  Buffer is a pointer into the
    vector; it is modelled by the vector's contents. *)
Record TransferData := {
  td_CompletionStatus : NTSTATUS;
  td_Buffer : list BYTE;
  td_Length : DWORD;
  td_Offset : LARGE_INTEGER
}.

(** A pointer member or argument, as the one who reads through it finds it.
    The source sets two members to the address of a local variable of the
    helper that fills the structure (lines 379 and 416).  The variable ends
    with the helper's call: from then on the pointer dangles, and what is
    read through it is not fixed by the program.  [to_local v] is the
    pointer while the variable, holding [v], is alive; [at_return] is what
    becomes of it when the function owning the variable returns. *)
Inductive Pointer (A : Type) : Type :=
| nullptr
| to_local (v : A)
| dangling.
Arguments nullptr {A}.
Arguments to_local {A} v.
Arguments dangling {A}.

Definition at_return {A : Type} (ptr : Pointer A) : Pointer A :=
  match ptr with
  | nullptr => nullptr
  | to_local _ => dangling
  | dangling => dangling
  end.

Inductive CF_HYDRATION_POLICY := CF_HYDRATION_POLICY_FULL.
Inductive CF_POPULATION_POLICY := CF_POPULATION_POLICY_ALWAYS_FULL.
Inductive CF_INSYNC_POLICY := CF_INSYNC_POLICY_TRACK_ALL.
Inductive CF_HARDLINK_POLICY := CF_HARDLINK_POLICY_NONE.
Inductive CF_PLACEHOLDER_MANAGEMENT_POLICY :=
  CF_PLACEHOLDER_MANAGEMENT_POLICY_DEFAULT.

Record CF_SYNC_POLICIES := {
  pol_Hydration : CF_HYDRATION_POLICY;
  pol_Population : CF_POPULATION_POLICY;
  pol_InSync : CF_INSYNC_POLICY;
  pol_HardLink : CF_HARDLINK_POLICY;
  pol_PlaceholderManagement : CF_PLACEHOLDER_MANAGEMENT_POLICY
}.

Record CF_SYNC_REGISTRATION := {
  reg_ProviderName : wstring;
  reg_ProviderVersion : wstring;
  reg_SyncPolicies : Pointer CF_SYNC_POLICIES
}.

Record FILE_BASIC_INFO := {
  CreationTime : LARGE_INTEGER;
  LastAccessTime : LARGE_INTEGER;
  LastWriteTime : LARGE_INTEGER;
  ChangeTime : LARGE_INTEGER;
  FileAttributes : DWORD
}.

Record CF_FS_METADATA := {
  fs_BasicInfo : FILE_BASIC_INFO;
  fs_FileSize : LARGE_INTEGER
}.

(** The two heap blocks are modelled by their address and their contents. *)
Record CF_PLACEHOLDER_CREATE_INFO := {
  RelativeFileName : option (Z * wstring);
  FileIdentity : option (Z * list BYTE);
  FileIdentityLength : Z;
  FsMetadata : Pointer CF_FS_METADATA
}.

Inductive CF_IN_SYNC_STATE :=
| CF_IN_SYNC_STATE_NOT_IN_SYNC
| CF_IN_SYNC_STATE_IN_SYNC.

Inductive CF_PIN_STATE :=
| CF_PIN_STATE_UNSPECIFIED
| CF_PIN_STATE_PINNED
| CF_PIN_STATE_UNPINNED
| CF_PIN_STATE_EXCLUDED
| CF_PIN_STATE_INHERIT.

(** Modelled from the spec: the event record of a host callback (cfapi.h's
    CF_CALLBACK_INFO and CF_CALLBACK_PARAMETERS::FetchData, declared outside
    the two source files).  Section 4.3: each handler receives the
    normalized relative path, a correlation key and event-specific
    parameters.  [TransferKey] is that correlation key; the source reads
    only NormalizedPath, ConnectionKey and CallbackContext. *)
Record CF_CALLBACK_INFO := {
  ConnectionKey : CF_CONNECTION_KEY;
  NormalizedPath : wstring;
  TransferKey : CF_TRANSFER_KEY
}.

Record CF_CALLBACK_PARAMETERS_FetchData := {
  RequiredFileOffset : LARGE_INTEGER;
  RequiredLength : LARGE_INTEGER
}.

(** ** What the provider does to the outside, in program order *)

Inductive Event :=
| Wcout (text : string)
| WcoutStr (text : string) (arg : wstring)
| WcoutNum (text : string) (arg : Z)
| Call_CreateDirectoryW (path : wstring)
| Call_CfRegisterSyncRoot (path : wstring) (registration : CF_SYNC_REGISTRATION)
                          (Policies : Pointer CF_SYNC_POLICIES)
| Call_CfConnectSyncRoot (path : wstring)
| Call_CfUnregisterSyncRoot (path : wstring)
| Call_CfDisconnectSyncRoot (key : CF_CONNECTION_KEY)
| Call_CfCreatePlaceholders (syncRoot : wstring)
                            (info : CF_PLACEHOLDER_CREATE_INFO)
| Call_CfExecute (opInfo : CF_OPERATION_INFO) (opParams : TransferData)
| Call_CfSetInSyncState (h : HANDLE) (state : CF_IN_SYNC_STATE)
| Call_CfSetPinState (h : HANDLE) (state : CF_PIN_STATE)
| Call_CreateFileW (path : wstring)
| Call_CloseHandle (h : HANDLE)
| Call_HeapAlloc (size : Z)
| Call_HeapFree (address : Z)
| Call_fetchDataCallback (path : wstring)
| Call_progressCallback (target : nat) (value : double).

(** ** Application callbacks *)

(** A call of the fetch source returns a buffer or leaves by an exception. *)
Inductive FetchOutcome :=
| Returned (data : list BYTE)
| Raised.

(** std::function<std::vector<BYTE>(const std::wstring&)>; an empty
    std::function is [None]. *)
Definition FetchDataCallback := option (wstring -> FetchOutcome).

(** std::function<void(double)> and the notify sink: [None] when empty,
    otherwise the name of the application's callable, which is taken to
    return. *)
Definition ProgressCallback := option nat.
Definition NotifyCallback := option nat.

(** ** The work queue *)

(** The closure pushed by OnFetchData captures [provider], [relativePath]
    and [transferKey] by value.  [provider] is the one provider object. *)
Record WorkItem := {
  relativePath : wstring;
  transferKey : LARGE_INTEGER
}.

(** Where the worker thread's lambda (Initialize, lines 37-52) stands. *)
Inductive WorkerPC :=
| pc_outer_test                  (* line 38: while (!m_shouldStop) *)
| pc_wait                        (* lines 39-40: lock, wait(lock, pred) *)
| pc_inner_test                  (* line 42, mutex held *)
| pc_pop                         (* lines 43-45, mutex held *)
| pc_work (work : WorkItem)      (* line 47, entering work() *)
| pc_transfer (work : WorkItem) (data : list BYTE)
                                 (* line 47, in work() at lines 269-286 *)
| pc_relock.                     (* line 49: lock.lock() *)

(** std::thread m_workerThread. *)
Inductive Thread :=
| NotJoinable                    (* default constructed, or joined *)
| Running (pc : WorkerPC)
| Finished                       (* the lambda returned; still joinable *)
| Terminated.                    (* an exception left the lambda: std::terminate *)

(** ** The provider object (CloudFilesProvider.h, lines 109-123) *)

Record CloudFilesProvider := {
  m_initialized : bool;
  m_syncRootPath : wstring;
  m_connectionKey : CF_CONNECTION_KEY;
  m_workerThread : Thread;
  m_queueMutex : bool;           (* true: locked *)
  m_workQueue : list WorkItem;   (* front of the queue first *)
  m_shouldStop : bool;
  m_fetchDataCallback : FetchDataCallback;
  m_notifyCallback : NotifyCallback
}.

Definition set_initialized (p : CloudFilesProvider) (b : bool) :=
  {| m_initialized := b; m_syncRootPath := m_syncRootPath p;
     m_connectionKey := m_connectionKey p; m_workerThread := m_workerThread p;
     m_queueMutex := m_queueMutex p; m_workQueue := m_workQueue p;
     m_shouldStop := m_shouldStop p;
     m_fetchDataCallback := m_fetchDataCallback p;
     m_notifyCallback := m_notifyCallback p |}.

Definition set_syncRootPath (p : CloudFilesProvider) (s : wstring) :=
  {| m_initialized := m_initialized p; m_syncRootPath := s;
     m_connectionKey := m_connectionKey p; m_workerThread := m_workerThread p;
     m_queueMutex := m_queueMutex p; m_workQueue := m_workQueue p;
     m_shouldStop := m_shouldStop p;
     m_fetchDataCallback := m_fetchDataCallback p;
     m_notifyCallback := m_notifyCallback p |}.

Definition set_connectionKey (p : CloudFilesProvider) (k : CF_CONNECTION_KEY) :=
  {| m_initialized := m_initialized p; m_syncRootPath := m_syncRootPath p;
     m_connectionKey := k; m_workerThread := m_workerThread p;
     m_queueMutex := m_queueMutex p; m_workQueue := m_workQueue p;
     m_shouldStop := m_shouldStop p;
     m_fetchDataCallback := m_fetchDataCallback p;
     m_notifyCallback := m_notifyCallback p |}.

Definition set_workerThread (p : CloudFilesProvider) (t : Thread) :=
  {| m_initialized := m_initialized p; m_syncRootPath := m_syncRootPath p;
     m_connectionKey := m_connectionKey p; m_workerThread := t;
     m_queueMutex := m_queueMutex p; m_workQueue := m_workQueue p;
     m_shouldStop := m_shouldStop p;
     m_fetchDataCallback := m_fetchDataCallback p;
     m_notifyCallback := m_notifyCallback p |}.

Definition set_queueMutex (p : CloudFilesProvider) (b : bool) :=
  {| m_initialized := m_initialized p; m_syncRootPath := m_syncRootPath p;
     m_connectionKey := m_connectionKey p; m_workerThread := m_workerThread p;
     m_queueMutex := b; m_workQueue := m_workQueue p;
     m_shouldStop := m_shouldStop p;
     m_fetchDataCallback := m_fetchDataCallback p;
     m_notifyCallback := m_notifyCallback p |}.

Definition set_workQueue (p : CloudFilesProvider) (q : list WorkItem) :=
  {| m_initialized := m_initialized p; m_syncRootPath := m_syncRootPath p;
     m_connectionKey := m_connectionKey p; m_workerThread := m_workerThread p;
     m_queueMutex := m_queueMutex p; m_workQueue := q;
     m_shouldStop := m_shouldStop p;
     m_fetchDataCallback := m_fetchDataCallback p;
     m_notifyCallback := m_notifyCallback p |}.

Definition set_shouldStop (p : CloudFilesProvider) (b : bool) :=
  {| m_initialized := m_initialized p; m_syncRootPath := m_syncRootPath p;
     m_connectionKey := m_connectionKey p; m_workerThread := m_workerThread p;
     m_queueMutex := m_queueMutex p; m_workQueue := m_workQueue p;
     m_shouldStop := b;
     m_fetchDataCallback := m_fetchDataCallback p;
     m_notifyCallback := m_notifyCallback p |}.

Definition set_fetchDataCallback (p : CloudFilesProvider)
    (c : FetchDataCallback) :=
  {| m_initialized := m_initialized p; m_syncRootPath := m_syncRootPath p;
     m_connectionKey := m_connectionKey p; m_workerThread := m_workerThread p;
     m_queueMutex := m_queueMutex p; m_workQueue := m_workQueue p;
     m_shouldStop := m_shouldStop p;
     m_fetchDataCallback := c;
     m_notifyCallback := m_notifyCallback p |}.

Definition set_notifyCallback (p : CloudFilesProvider) (c : NotifyCallback) :=
  {| m_initialized := m_initialized p; m_syncRootPath := m_syncRootPath p;
     m_connectionKey := m_connectionKey p; m_workerThread := m_workerThread p;
     m_queueMutex := m_queueMutex p; m_workQueue := m_workQueue p;
     m_shouldStop := m_shouldStop p;
     m_fetchDataCallback := m_fetchDataCallback p;
     m_notifyCallback := c |}.

(** What a member function leaves behind: the returned value, the provider
    object afterwards, the calls made. *)
Record Outcome (A : Type) := mkOutcome {
  returned : A;
  after : CloudFilesProvider;
  calls : list Event
}.
Arguments mkOutcome {A} _ _ _.
Arguments returned {A} _.
Arguments after {A} _.
Arguments calls {A} _.

(** ** Reading a list of calls *)

Definition transfers (t : list Event)
    : list (CF_OPERATION_INFO * TransferData) :=
  flat_map (fun e => match e with
                     | Call_CfExecute i d => [(i, d)]
                     | _ => []
                     end) t.

Definition progress_values (t : list Event) : list double :=
  flat_map (fun e => match e with
                     | Call_progressCallback _ v => [v]
                     | _ => []
                     end) t.

Definition closed_handles (t : list Event) : list HANDLE :=
  flat_map (fun e => match e with
                     | Call_CloseHandle h => [h]
                     | _ => []
                     end) t.

Definition opened_paths (t : list Event) : list wstring :=
  flat_map (fun e => match e with
                     | Call_CreateFileW f => [f]
                     | _ => []
                     end) t.

Definition disconnected_keys (t : list Event) : list CF_CONNECTION_KEY :=
  flat_map (fun e => match e with
                     | Call_CfDisconnectSyncRoot k => [k]
                     | _ => []
                     end) t.

Definition fetched_paths (t : list Event) : list wstring :=
  flat_map (fun e => match e with
                     | Call_fetchDataCallback f => [f]
                     | _ => []
                     end) t.

Definition placeholder_roots (t : list Event) : list wstring :=
  flat_map (fun e => match e with
                     | Call_CfCreatePlaceholders r _ => [r]
                     | _ => []
                     end) t.

(** The identity a placeholder descriptor carries: bytes and length. *)
Definition identity_of (info : CF_PLACEHOLDER_CREATE_INFO)
    : option (list BYTE) * Z :=
  (option_map snd (FileIdentity info), FileIdentityLength info).

(** ** Member functions that run on the caller's thread *)

Section MemberFunctions.
Context {platform : Platform}.

(** The object representation of a size_t, as memcpy reads it
    (little-endian). *)
Definition byte_of_Z (z : Z) : BYTE :=
  match Byte.of_N (Z.to_N (z mod 256)) with
  | Some b => b
  | None => x00
  end.

Fixpoint object_bytes (n : nat) (v : Z) : list BYTE :=
  match n with
  | O => []
  | S k => byte_of_Z v :: object_bytes k (v / 256)
  end.

(** Lines 79-82 of Shutdown and lines 144-147 of UnregisterSyncRoot, the
    same four lines:
    [if (m_connectionKey != CF_CONNECTION_KEY_INVALID) {
       CfDisconnectSyncRoot(m_connectionKey);
       m_connectionKey = CF_CONNECTION_KEY_INVALID; }] *)
Definition disconnect (p : CloudFilesProvider)
    : CloudFilesProvider * list Event :=
  if negb (m_connectionKey p =? CF_CONNECTION_KEY_INVALID) then
    (set_connectionKey p CF_CONNECTION_KEY_INVALID,
     [Call_CfDisconnectSyncRoot (m_connectionKey p)])
  else (p, []).

(** CreateSyncRegistration, lines 362-382.  [policies] is a local
    variable; line 379 stores its address in the caller's structure, and
    the variable ends at the return of line 381. *)
Definition CreateSyncRegistration (displayName : wstring)
    : HRESULT * CF_SYNC_REGISTRATION :=
  let policies :=
    {| pol_Hydration := CF_HYDRATION_POLICY_FULL;
       pol_Population := CF_POPULATION_POLICY_ALWAYS_FULL;
       pol_InSync := CF_INSYNC_POLICY_TRACK_ALL;
       pol_HardLink := CF_HARDLINK_POLICY_NONE;
       pol_PlaceholderManagement := CF_PLACEHOLDER_MANAGEMENT_POLICY_DEFAULT |} in
  (S_OK, {| reg_ProviderName := displayName;
            reg_ProviderVersion := "1.0.0";
            reg_SyncPolicies := at_return (to_local policies) |}).

(** The host's answers to the calls of one RegisterSyncRoot.  The key is
    what CfConnectSyncRoot leaves in m_connectionKey through its out
    parameter. *)
Record RegisterHost := {
  CreateDirectoryW_ok : bool;
  CreateDirectoryW_LastError : DWORD;
  CfRegisterSyncRoot_hr : HRESULT;
  CfConnectSyncRoot_hr : HRESULT;
  CfConnectSyncRoot_key : CF_CONNECTION_KEY
}.

(** RegisterSyncRoot, lines 88-139.  Line 108 passes nullptr for the
    Policies argument of CfRegisterSyncRoot. *)
Definition RegisterSyncRoot (p : CloudFilesProvider)
    (syncRootPath displayName : wstring) (host : RegisterHost)
    : Outcome HRESULT :=
  let t := [WcoutStr "Registering sync root: " syncRootPath] in
  let p := set_syncRootPath p syncRootPath in
  let t := t ++ [Call_CreateDirectoryW syncRootPath] in
  if negb (CreateDirectoryW_ok host)
     && negb (CreateDirectoryW_LastError host =? ERROR_ALREADY_EXISTS)
  then
    let error := CreateDirectoryW_LastError host in
    mkOutcome (HRESULT_FROM_WIN32 error) p
      (t ++ [WcoutNum "Failed to create sync root directory: " error])
  else
    let '(hr, registration) := CreateSyncRegistration displayName in
    if FAILED hr then mkOutcome hr p t
    else
      let hr := CfRegisterSyncRoot_hr host in
      let t := t ++ [Call_CfRegisterSyncRoot syncRootPath registration
                       nullptr] in
      if FAILED hr then
        mkOutcome hr p (t ++ [WcoutNum "Failed to register sync root: 0x" hr])
      else
        let hr := CfConnectSyncRoot_hr host in
        let p := set_connectionKey p (CfConnectSyncRoot_key host) in
        let t := t ++ [Call_CfConnectSyncRoot syncRootPath] in
        if FAILED hr then
          mkOutcome hr p
            (t ++ [WcoutNum "Failed to connect sync root: 0x" hr;
                   Call_CfUnregisterSyncRoot syncRootPath])
        else
          mkOutcome S_OK p (t ++ [Wcout "Sync root registered successfully"]).

(** UnregisterSyncRoot, lines 141-155.  [CfUnregisterSyncRoot_hr] is the
    host's answer. *)
Definition UnregisterSyncRoot (p : CloudFilesProvider)
    (syncRootPath : wstring) (CfUnregisterSyncRoot_hr : HRESULT)
    : Outcome HRESULT :=
  let t := [WcoutStr "Unregistering sync root: " syncRootPath] in
  let '(p, d) := disconnect p in
  let t := t ++ d in
  let hr := CfUnregisterSyncRoot_hr in
  let t := t ++ [Call_CfUnregisterSyncRoot syncRootPath] in
  let t := if FAILED hr
           then t ++ [WcoutNum "Failed to unregister sync root: 0x" hr]
           else t in
  mkOutcome hr p t.

(** The answers of the process heap to the two HeapAlloc calls of
    CreatePlaceholderInfo: the block's address, or [None] for NULL. *)
Record HeapHost := {
  HeapAlloc_fileName : option Z;
  HeapAlloc_fileIdentity : option Z
}.

Definition zeroed_placeholderInfo : CF_PLACEHOLDER_CREATE_INFO :=
  {| RelativeFileName := None; FileIdentity := None;
     FileIdentityLength := 0; FsMetadata := nullptr |}.

(** CreatePlaceholderInfo, lines 384-419.  It reads no member.
    [fsMetadata] is a local variable; line 416 stores its address in the
    caller's structure, and the variable ends at the return of line 418. *)
Definition CreatePlaceholderInfo (relativePath : wstring)
    (basicInfo : FILE_BASIC_INFO) (fileSize : LARGE_INTEGER) (heap : HeapHost)
    : HRESULT * CF_PLACEHOLDER_CREATE_INFO * list Event :=
  let placeholderInfo := zeroed_placeholderInfo in
  let pathLength :=
    (Z.of_nat (String.length relativePath) + 1) * sizeof_WCHAR in
  let t := [Call_HeapAlloc pathLength] in
  match HeapAlloc_fileName heap with
  | None => (E_OUTOFMEMORY, placeholderInfo, t)
  | Some fileName =>
      let hashValue := hasher relativePath in
      let t := t ++ [Call_HeapAlloc (Z.of_nat sizeof_size_t)] in
      match HeapAlloc_fileIdentity heap with
      | None => (E_OUTOFMEMORY, placeholderInfo, t ++ [Call_HeapFree fileName])
      | Some fileIdentity =>
          let fsMetadata :=
            {| fs_BasicInfo := basicInfo; fs_FileSize := fileSize |} in
          (S_OK,
           {| RelativeFileName := Some (fileName, relativePath);
              FileIdentity :=
                Some (fileIdentity, object_bytes sizeof_size_t hashValue);
              FileIdentityLength := Z.of_nat sizeof_size_t;
              FsMetadata := at_return (to_local fsMetadata) |},
           t)
      end
  end.

(** CreatePlaceholder, lines 157-180.  [CfCreatePlaceholders_hr] is the
    host's answer. *)
Definition CreatePlaceholder (p : CloudFilesProvider) (relativePath : wstring)
    (basicInfo : FILE_BASIC_INFO) (fileSize : LARGE_INTEGER)
    (heap : HeapHost) (CfCreatePlaceholders_hr : HRESULT) : Outcome HRESULT :=
  let t := [WcoutStr "Creating placeholder: " relativePath] in
  let '(hr, placeholderInfo, a) :=
    CreatePlaceholderInfo relativePath basicInfo fileSize heap in
  let t := t ++ a in
  if FAILED hr then mkOutcome hr p t
  else
    let hr := CfCreatePlaceholders_hr in
    let t := t ++ [Call_CfCreatePlaceholders (m_syncRootPath p)
                     placeholderInfo] in
    let t := if FAILED hr
             then t ++ [WcoutNum "Failed to create placeholder: 0x" hr]
             else t in
    let t := match RelativeFileName placeholderInfo with
             | Some (a, _) => t ++ [Call_HeapFree a]
             | None => t
             end in
    let t := match FileIdentity placeholderInfo with
             | Some (a, _) => t ++ [Call_HeapFree a]
             | None => t
             end in
    mkOutcome hr p t.

(** GetFullPath, lines 421-423. *)
Definition GetFullPath (p : CloudFilesProvider) (relativePath : wstring)
    : wstring :=
  (m_syncRootPath p ++ "\" ++ relativePath)%string.

(** GetFileHandle, lines 425-436.  [CreateFileW_handle] is the host's
    answer. *)
Definition GetFileHandle (p : CloudFilesProvider) (relativePath : wstring)
    (CreateFileW_handle : HANDLE) : HANDLE * list Event :=
  let fullPath := GetFullPath p relativePath in
  (CreateFileW_handle, [Call_CreateFileW fullPath]).

(** The host's answers to the calls of one HydrateFile, SetInSyncState or
    SetPinState: the handle from CreateFileW, GetLastError after it, and the
    HRESULT of the one cfapi call. *)
Record FileHost := {
  CreateFileW_handle : HANDLE;
  CreateFileW_LastError : DWORD;
  cfapi_hr : HRESULT
}.

(** The operation both transfers build: lines 194-206 and 269-281. *)
Definition transfer_opInfo (connectionKey : CF_CONNECTION_KEY)
    (key : CF_TRANSFER_KEY) : CF_OPERATION_INFO :=
  {| op_Type := CF_OPERATION_TYPE_TRANSFER_DATA;
     op_ConnectionKey := connectionKey;
     op_TransferKey := key |}.

Definition transfer_opParams (data : list BYTE) : TransferData :=
  {| td_CompletionStatus := STATUS_SUCCESS;
     td_Buffer := data;
     td_Length := to_DWORD (Z.of_nat (List.length data));
     td_Offset := 0 |}.

(** HydrateFile, lines 182-220. *)
Definition HydrateFile (p : CloudFilesProvider) (relativePath : wstring)
    (data : list BYTE) (progressCallback : ProgressCallback) (host : FileHost)
    : Outcome HRESULT :=
  let t := [WcoutStr "Hydrating file: " relativePath] in
  let fullPath := GetFullPath p relativePath in
  let '(fileHandle, o) := GetFileHandle p relativePath (CreateFileW_handle host) in
  let t := t ++ o in
  if fileHandle =? INVALID_HANDLE_VALUE then
    let error := CreateFileW_LastError host in
    mkOutcome (HRESULT_FROM_WIN32 error) p
      (t ++ [WcoutNum "Failed to get file handle: " error])
  else
    let opInfo := transfer_opInfo (m_connectionKey p) CF_TRANSFER_KEY_INVALID in
    let opParams := transfer_opParams data in
    let hr := cfapi_hr host in
    let t := t ++ [Call_CfExecute opInfo opParams] in
    let t := if FAILED hr
             then t ++ [WcoutNum "Failed to transfer data: 0x" hr]
             else t in
    let t := t ++ [Call_CloseHandle fileHandle] in
    let t := match progressCallback with
             | Some target => t ++ [Call_progressCallback target double_1_0]
             | None => t
             end in
    mkOutcome hr p t.

(** SetInSyncState, lines 222-232. *)
Definition SetInSyncState (p : CloudFilesProvider) (relativePath : wstring)
    (state : CF_IN_SYNC_STATE) (host : FileHost) : Outcome HRESULT :=
  let '(fileHandle, t) := GetFileHandle p relativePath (CreateFileW_handle host) in
  if fileHandle =? INVALID_HANDLE_VALUE then
    mkOutcome (HRESULT_FROM_WIN32 (CreateFileW_LastError host)) p t
  else
    let hr := cfapi_hr host in
    mkOutcome hr p
      (t ++ [Call_CfSetInSyncState fileHandle state; Call_CloseHandle fileHandle]).

(** SetPinState, lines 234-244. *)
Definition SetPinState (p : CloudFilesProvider) (relativePath : wstring)
    (pinState : CF_PIN_STATE) (host : FileHost) : Outcome HRESULT :=
  let '(fileHandle, t) := GetFileHandle p relativePath (CreateFileW_handle host) in
  if fileHandle =? INVALID_HANDLE_VALUE then
    mkOutcome (HRESULT_FROM_WIN32 (CreateFileW_LastError host)) p t
  else
    let hr := cfapi_hr host in
    mkOutcome hr p
      (t ++ [Call_CfSetPinState fileHandle pinState; Call_CloseHandle fileHandle]).

(** SetFetchDataCallback and SetNotifyCallback, lines 246-252. *)
Definition SetFetchDataCallback (p : CloudFilesProvider)
    (callback : FetchDataCallback) : CloudFilesProvider :=
  set_fetchDataCallback p callback.

Definition SetNotifyCallback (p : CloudFilesProvider)
    (callback : NotifyCallback) : CloudFilesProvider :=
  set_notifyCallback p callback.

End MemberFunctions.

(** ** The threads: worker, producers, Initialize and Shutdown *)

Section Threads.
Context {platform : Platform}.

(** The process as the schedule sees it.  [submitted] and [executed] are
    history variables: every item pushed on m_workQueue in push order, and
    every item on which the worker called work(), in call order. *)
Record System := {
  provider : CloudFilesProvider;
  output : list Event;
  joining : bool;              (* Shutdown has passed line 72 *)
  submitted : list WorkItem;
  executed : list WorkItem
}.

Definition with_provider (s : System) (p : CloudFilesProvider) : System :=
  {| provider := p; output := output s; joining := joining s;
     submitted := submitted s; executed := executed s |}.

Definition say (s : System) (t : list Event) : System :=
  {| provider := provider s; output := output s ++ t; joining := joining s;
     submitted := submitted s; executed := executed s |}.

Definition with_joining (s : System) (b : bool) : System :=
  {| provider := provider s; output := output s; joining := b;
     submitted := submitted s; executed := executed s |}.

Definition note_submitted (s : System) (w : WorkItem) : System :=
  {| provider := provider s; output := output s; joining := joining s;
     submitted := submitted s ++ [w]; executed := executed s |}.

Definition note_executed (s : System) (w : WorkItem) : System :=
  {| provider := provider s; output := output s; joining := joining s;
     submitted := submitted s; executed := executed s ++ [w] |}.

Definition at_pc (s : System) (t : Thread) : System :=
  with_provider s (set_workerThread (provider s) t).

(** The members' initializers in CloudFilesProvider.h. *)
Definition new_CloudFilesProvider : CloudFilesProvider :=
  {| m_initialized := false; m_syncRootPath := "";
     m_connectionKey := CF_CONNECTION_KEY_INVALID;
     m_workerThread := NotJoinable; m_queueMutex := false;
     m_workQueue := []; m_shouldStop := false;
     m_fetchDataCallback := None; m_notifyCallback := None |}.

Definition process_start : System :=
  {| provider := new_CloudFilesProvider; output := []; joining := false;
     submitted := []; executed := [] |}.

(** One atomic step of one thread.  Initialize, Shutdown, RegisterSyncRoot,
    UnregisterSyncRoot and SetFetchDataCallback are calls of the one
    application thread; Shutdown is two steps, because it blocks in join
    between them. *)
Inductive Action :=
| Act_Initialize
| Act_Shutdown_stop              (* Shutdown, lines 61-72 *)
| Act_Shutdown_join              (* Shutdown, lines 74-85 *)
| Act_RegisterSyncRoot (syncRootPath displayName : wstring)
                       (host : RegisterHost)
| Act_UnregisterSyncRoot (syncRootPath : wstring)
                         (CfUnregisterSyncRoot_hr : HRESULT)
| Act_SetFetchDataCallback (callback : FetchDataCallback)
| Act_OnFetchData (CallbackInfo : CF_CALLBACK_INFO)
                  (FetchData : CF_CALLBACK_PARAMETERS_FetchData)
| Act_Worker (CfExecute_hr : HRESULT).

(** Initialize, lines 28-58.  Assigning to a std::thread that is still
    joinable calls std::terminate. *)
Definition Initialize (s : System) : option System :=
  let p := provider s in
  if m_initialized p then Some s
  else
    let s := say s [Wcout "Initializing Main Booth Drive Cloud Files Provider..."] in
    let p := set_shouldStop p false in
    match m_workerThread p with
    | NotJoinable =>
        let p := set_workerThread p (Running pc_outer_test) in
        let p := set_initialized p true in
        Some (say (with_provider s p)
                [Wcout "Cloud Files Provider initialized successfully"])
    | _ => Some (with_provider s (set_workerThread p Terminated))
    end.

(** Shutdown, lines 61-72: the early return, the stop flag under the
    mutex, notify_all. *)
Definition Shutdown_stop (s : System) : option System :=
  let p := provider s in
  if joining s then None
  else if negb (m_initialized p) then Some s
  else if m_queueMutex p then None
  else
    let s := say s [Wcout "Shutting down Cloud Files Provider..."] in
    Some (with_joining (with_provider s (set_shouldStop p true)) true).

(** Shutdown, lines 74-85: join, which returns once the worker's lambda has
    returned, then the disconnect. *)
Definition Shutdown_join (s : System) : option System :=
  let p := provider s in
  if negb (joining s) then None
  else
    let joined :=
      match m_workerThread p with
      | Finished => Some (set_workerThread p NotJoinable)
      | NotJoinable => Some p
      | Running _ => None
      | Terminated => None
      end in
    match joined with
    | None => None
    | Some p =>
        let '(p, d) := disconnect p in
        let p := set_initialized p false in
        Some (with_joining
                (say (with_provider s p)
                   (d ++ [Wcout "Cloud Files Provider shut down"]))
                false)
    end.

(** OnFetchData, lines 255-291.  The host passes the provider as
    CallbackContext.  The lock_guard makes the push wait for the mutex. *)
Definition OnFetchData (s : System) (CallbackInfo : CF_CALLBACK_INFO)
    (FetchData : CF_CALLBACK_PARAMETERS_FetchData) : option System :=
  let p := provider s in
  let relativePath := NormalizedPath CallbackInfo in
  let s := say s [WcoutStr "Fetch data requested for: " relativePath] in
  match m_fetchDataCallback p with
  | Some _ =>
      if m_queueMutex p then None
      else
        let work := {| relativePath := relativePath;
                       transferKey := RequiredFileOffset FetchData |} in
        let p := set_workQueue p (m_workQueue p ++ [work]) in
        Some (note_submitted (with_provider s p) work)
  | None => Some s
  end.

(** One step of the worker's lambda, lines 37-52, and of the closure it
    calls, lines 265-287.  [None]: the thread cannot move (it waits for the
    mutex or for the condition, or it is not running). *)
Definition worker_step (s : System) (CfExecute_hr : HRESULT) : option System :=
  let p := provider s in
  match m_workerThread p with
  | Running pc_outer_test =>
      if negb (m_shouldStop p) then Some (at_pc s (Running pc_wait))
      else Some (at_pc s Finished)
  | Running pc_wait =>
      if m_queueMutex p then None
      else if negb (match m_workQueue p with [] => true | _ => false end)
              || m_shouldStop p
      then Some (with_provider s
                   (set_workerThread (set_queueMutex p true)
                      (Running pc_inner_test)))
      else None
  | Running pc_inner_test =>
      if negb (match m_workQueue p with [] => true | _ => false end)
         && negb (m_shouldStop p)
      then Some (at_pc s (Running pc_pop))
      else Some (with_provider s
                   (set_workerThread (set_queueMutex p false)
                      (Running pc_outer_test)))
  | Running pc_pop =>
      match m_workQueue p with
      | work :: rest =>
          let p := set_workQueue p rest in
          let p := set_queueMutex p false in
          Some (with_provider s (set_workerThread p (Running (pc_work work))))
      | [] => None
      end
  | Running (pc_work work) =>
      let s := note_executed s work in
      match m_fetchDataCallback p with
      | None => Some (at_pc s Terminated)
      | Some f =>
          let s := say s [Call_fetchDataCallback (relativePath work)] in
          match f (relativePath work) with
          | Returned data => Some (at_pc s (Running (pc_transfer work data)))
          | Raised => Some (at_pc s Terminated)
          end
      end
  | Running (pc_transfer work data) =>
      let opInfo := transfer_opInfo (m_connectionKey p) (transferKey work) in
      let opParams := transfer_opParams data in
      let hr := CfExecute_hr in
      let t := [Call_CfExecute opInfo opParams] in
      let t := if FAILED hr
               then t ++ [WcoutNum "Failed to transfer data in callback: 0x" hr]
               else t in
      Some (at_pc (say s t) (Running pc_relock))
  | Running pc_relock =>
      if m_queueMutex p then None
      else Some (with_provider s
                   (set_workerThread (set_queueMutex p true)
                      (Running pc_inner_test)))
  | NotJoinable | Finished | Terminated => None
  end.

(** After std::terminate nothing moves. *)
Definition step (s : System) (a : Action) : option System :=
  match m_workerThread (provider s) with
  | Terminated => None
  | _ =>
      match a with
      | Act_Initialize => Initialize s
      | Act_Shutdown_stop => Shutdown_stop s
      | Act_Shutdown_join => Shutdown_join s
      | Act_RegisterSyncRoot syncRootPath displayName host =>
          let o := RegisterSyncRoot (provider s) syncRootPath displayName host in
          Some (say (with_provider s (after o)) (calls o))
      | Act_UnregisterSyncRoot syncRootPath CfUnregisterSyncRoot_hr =>
          let o := UnregisterSyncRoot (provider s) syncRootPath
                     CfUnregisterSyncRoot_hr in
          Some (say (with_provider s (after o)) (calls o))
      | Act_SetFetchDataCallback callback =>
          Some (with_provider s (SetFetchDataCallback (provider s) callback))
      | Act_OnFetchData CallbackInfo FetchData =>
          OnFetchData s CallbackInfo FetchData
      | Act_Worker CfExecute_hr => worker_step s CfExecute_hr
      end
  end.

(** A thread scheduled while it cannot move stays where it is. *)
Definition exec (s : System) (a : Action) : System :=
  match step s a with
  | Some s' => s'
  | None => s
  end.

Definition run (schedule : list Action) (s : System) : System :=
  fold_left exec schedule s.

(** The item the worker has popped and not yet called. *)
Definition popped (s : System) : list WorkItem :=
  match m_workerThread (provider s) with
  | Running (pc_work work) => [work]
  | _ => []
  end.

(** The call of the fetch source that the closure of [work] would make now
    returns. *)
Definition fetch_returns (s : System) (work : WorkItem) : Prop :=
  exists f data,
    m_fetchDataCallback (provider s) = Some f /\
    f (relativePath work) = Returned data.

(** It leaves by an exception: the fetch source raises, or the
    std::function is empty (std::bad_function_call). *)
Definition fetch_raises (s : System) (work : WorkItem) : Prop :=
  match m_fetchDataCallback (provider s) with
  | Some f => f (relativePath work) = Raised
  | None => True
  end.

Definition is_worker_or_fetch (a : Action) : bool :=
  match a with
  | Act_Worker _ | Act_OnFetchData _ _ => true
  | _ => false
  end.

Definition is_worker (a : Action) : bool :=
  match a with
  | Act_Worker _ => true
  | _ => false
  end.

Definition worker_steps (schedule : list Action) : nat :=
  List.length (filter is_worker schedule).

(** A worker thread exists only while the provider is initialized. *)
Definition thread_owned (s : System) : Prop :=
  m_initialized (provider s) = false ->
  m_workerThread (provider s) = NotJoinable \/
  m_workerThread (provider s) = Terminated.

(** Every pushed item is accounted for, in order: called, popped and about
    to be called, or still queued. *)
Definition accounted (s : System) : Prop :=
  submitted s = executed s ++ popped s ++ m_workQueue (provider s).

(** Five steps of the worker take one item from the test at line 42 through
    pop, work() and lock.lock() back to the test; [hr] is the host's answer
    to the item's CfExecute. *)
Definition worker_round (hr : HRESULT) : list Action :=
  [Act_Worker hr; Act_Worker hr; Act_Worker hr; Act_Worker hr; Act_Worker hr].

(** The item the worker is executing, with the buffer its fetch returns or
    has returned. *)
Definition in_flight (s : System) : option (WorkItem * list BYTE) :=
  match m_workerThread (provider s) with
  | Running (pc_work work) =>
      match m_fetchDataCallback (provider s) with
      | Some f =>
          match f (relativePath work) with
          | Returned data => Some (work, data)
          | Raised => None
          end
      | None => None
      end
  | Running (pc_transfer work data) => Some (work, data)
  | _ => None
  end.

(** The transfer the closure of [work] issues for [data]. *)
Definition transfer_of (s : System) (work : WorkItem) (data : list BYTE)
    : CF_OPERATION_INFO * TransferData :=
  (transfer_opInfo (m_connectionKey (provider s)) (transferKey work),
   transfer_opParams data).

Definition is_Initialize (a : Action) : bool :=
  match a with
  | Act_Initialize => true
  | _ => false
  end.

(** The mutex is held exactly while the worker stands between the wait or
    lock.lock() and the unlock: producers hold it within one step only. *)
Definition mutex_owned (s : System) : Prop :=
  m_queueMutex (provider s) =
  match m_workerThread (provider s) with
  | Running pc_inner_test | Running pc_pop => true
  | _ => false
  end.

(** What every schedule keeps true from the start of the process. *)
Definition sound (s : System) : Prop :=
  thread_owned s /\ mutex_owned s /\ accounted s.

(** Where the worker stands [k] of its own steps before its lambda has
    returned, once a stop is requested while it executes [work]. *)
Definition stopping_thread (work : WorkItem) (data : list BYTE) (k : nat)
    : Thread :=
  match k with
  | 0%nat => Finished
  | 1%nat => Running pc_outer_test
  | 2%nat => Running pc_inner_test
  | 3%nat => Running pc_relock
  | 4%nat => Running (pc_transfer work data)
  | _ => Running (pc_work work)
  end.

(** The states between the stop request made in [s0], while [work] was in
    flight, and the return of the lambda. *)
Definition stopping (s0 : System) (work : WorkItem) (data : list BYTE)
    (k : nat) (s : System) : Prop :=
  (k <= 5)%nat /\
  m_workerThread (provider s) = stopping_thread work data k /\
  m_queueMutex (provider s) = Nat.eqb k 2 /\
  m_shouldStop (provider s) = true /\
  m_initialized (provider s) = true /\
  joining s = true /\
  m_connectionKey (provider s) = m_connectionKey (provider s0) /\
  (k = 5%nat -> exists f, m_fetchDataCallback (provider s) = Some f /\
                          f (relativePath work) = Returned data) /\
  (exists later,
     m_workQueue (provider s) = m_workQueue (provider s0) ++ later /\
     submitted s = submitted s0 ++ later) /\
  executed s ++ popped s = executed s0 ++ popped s0 /\
  transfers (output s) =
    transfers (output s0)
    ++ (if Nat.leb k 3 then [transfer_of s0 work data] else []).

Definition in_flight_steps (s : System) : nat :=
  match m_workerThread (provider s) with
  | Running (pc_transfer _ _) => 4%nat
  | _ => 5%nat
  end.

End Threads.

(** ** A platform to run the model on *)

(** FNV-1a over the object representation of the wide characters, 64 bits,
    the shape of std::hash in a 64-bit build. *)
Definition fnv1a_step (h b : Z) : Z :=
  (Z.lxor h b * 1099511628211) mod 2 ^ 64.

Fixpoint fnv1a_wide (h : Z) (s : wstring) : Z :=
  match s with
  | EmptyString => h
  | String c r =>
      fnv1a_wide (fnv1a_step (fnv1a_step h (Z.of_N (N_of_ascii c))) 0) r
  end.

Definition build_x64 : Platform :=
  {| CF_CONNECTION_KEY_INVALID := 0;
     CF_TRANSFER_KEY_INVALID := 0;
     sizeof_size_t := 8;
     hasher := fnv1a_wide 14695981039346656037 |}.

(** A vector fits the address space of the build. *)
Definition vector_fits {platform : Platform} (data : list BYTE) : Prop :=
  Z.of_nat (List.length data) < 2 ^ (8 * Z.of_nat sizeof_size_t).

(** ** Inputs for the examples *)

Definition report_pdf : wstring := "docs/report.pdf".
Definition notes_txt : wstring := "docs/notes.txt".
Definition drive_root : wstring := "C:\Users\me\Main Booth Drive".

Definition some_bytes : list BYTE := [x25; x50; x44; x46].

(** A provider that is connected with key 41. *)
Definition connected_provider : CloudFilesProvider :=
  set_syncRootPath
    (set_connectionKey (@new_CloudFilesProvider build_x64) 41) drive_root.

(** A fetch source that returns four bytes for every path. *)
Definition good_source : wstring -> FetchOutcome :=
  fun _ => Returned some_bytes.

(** A fetch source that raises for docs/report.pdf only. *)
Definition flaky_source : wstring -> FetchOutcome :=
  fun path => if String.eqb path report_pdf then Raised
              else Returned some_bytes.

Definition fetch_event (path : wstring) (key offset : Z)
    : CF_CALLBACK_INFO * CF_CALLBACK_PARAMETERS_FetchData :=
  ({| ConnectionKey := 41; NormalizedPath := path; TransferKey := key |},
   {| RequiredFileOffset := offset; RequiredLength := 4 |}).

Definition Act_fetch (path : wstring) (key offset : Z) : Action :=
  Act_OnFetchData (fst (fetch_event path key offset))
                  (snd (fetch_event path key offset)).

Definition a_FILE_BASIC_INFO : FILE_BASIC_INFO :=
  {| CreationTime := 0; LastAccessTime := 0; LastWriteTime := 0;
     ChangeTime := 0; FileAttributes := 128 |}.

Definition report_item : WorkItem :=
  {| relativePath := report_pdf; transferKey := 0 |}.
Definition notes_item : WorkItem :=
  {| relativePath := notes_txt; transferKey := 0 |}.

(** The application initializes the provider, registers and connects the
    sync root (the host hands out key 41) and sets a fetch source. *)
Definition friendly_host : RegisterHost :=
  {| CreateDirectoryW_ok := true; CreateDirectoryW_LastError := 0;
     CfRegisterSyncRoot_hr := S_OK; CfConnectSyncRoot_hr := S_OK;
     CfConnectSyncRoot_key := 41 |}.

(** A host on which the directory cannot be created (access denied). *)
Definition no_directory : RegisterHost :=
  {| CreateDirectoryW_ok := false; CreateDirectoryW_LastError := 5;
     CfRegisterSyncRoot_hr := S_OK; CfConnectSyncRoot_hr := S_OK;
     CfConnectSyncRoot_key := 41 |}.

Definition started (source : wstring -> FetchOutcome) : list Action :=
  [Act_Initialize;
   Act_RegisterSyncRoot drive_root "Main Booth Drive" friendly_host;
   Act_SetFetchDataCallback (Some source)].

(** The host asks for two files, both from offset 0, with transfer keys 7
    and 8. *)
Definition two_requests : list Action :=
  [Act_fetch report_pdf 7 0; Act_fetch notes_txt 8 0].

Definition worker_runs (n : nat) : list Action := repeat (Act_Worker S_OK) n.

(** The worker has popped the first of the two items and is about to call
    it; the second is queued. *)
Definition first_item_popped (source : wstring -> FetchOutcome) : System :=
  run (platform := build_x64)
      (started source ++ two_requests ++ worker_runs 4)
      (process_start (platform := build_x64)).

(** The host's answers when the file opens, and when it does not. *)
Definition file_opens (hr : HRESULT) : FileHost :=
  {| CreateFileW_handle := 100; CreateFileW_LastError := 0; cfapi_hr := hr |}.
Definition file_missing : FileHost :=
  {| CreateFileW_handle := INVALID_HANDLE_VALUE;
     CreateFileW_LastError := ERROR_FILE_NOT_FOUND; cfapi_hr := S_OK |}.

Definition heap_gives (a b : Z) : HeapHost :=
  {| HeapAlloc_fileName := Some a; HeapAlloc_fileIdentity := Some b |}.

(** A buffer of 2^32 bytes. *)
Definition four_GiB : list BYTE := repeat x00 (Z.to_nat 4294967296).

(** ** The rest of the two files *)

(** *** Time conversion (CloudFilesProvider.cpp, lines 458-480) *)

Record FILETIME := {
  dwLowDateTime : DWORD;
  dwHighDateTime : DWORD
}.

(** A value stored in an int64_t: 64 bits, two's complement. *)
Definition to_int64 (x : Z) : Z :=
  let m := x mod 2 ^ 64 in if m <? 2 ^ 63 then m else m - 2 ^ 64.

(** [const int64_t EPOCH_DIFFERENCE = 11644473600000000000LL].  The
    literal is above the largest long long; a compiler that accepts it
    reads it as an unsigned 64-bit value, and the initialisation of the
    int64_t keeps its 64 bits. *)
Definition EPOCH_DIFFERENCE : Z := to_int64 11644473600000000000.

(** DateTimeToFileTime, lines 458-471.  The time point is given by the
    count the function starts from,
    [duration_cast<nanoseconds>(timePoint.time_since_epoch()).count()];
    the division of int64_t values truncates toward zero. *)
Definition DateTimeToFileTime (nanoseconds : Z) : FILETIME :=
  let fileTime := to_int64 (Z.quot nanoseconds 100 + EPOCH_DIFFERENCE) in
  {| dwLowDateTime := to_DWORD (Z.land fileTime 0xFFFFFFFF);
     dwHighDateTime := to_DWORD (Z.shiftr fileTime 32) |}.

(** FileTimeToDateTime, lines 473-480.  The result is the count of
    nanoseconds the returned time point is built from. *)
Definition FileTimeToDateTime (fileTime : FILETIME) : Z :=
  let ft := Z.lor (to_int64 (Z.shiftl (dwHighDateTime fileTime) 32))
                  (dwLowDateTime fileTime) in
  let nanoseconds := to_int64 (to_int64 (ft - EPOCH_DIFFERENCE) * 100) in
  nanoseconds.

(** The FILETIME as the one unsigned 64-bit number Windows reads. *)
Definition FILETIME_value (ft : FILETIME) : Z :=
  dwHighDateTime ft * 2 ^ 32 + dwLowDateTime ft.

(** *** The callbacks answered on the host's thread (lines 293-359) *)

(** CF_OPERATION_PARAMETERS::AckData. *)
Record AckData := {
  ack_CompletionStatus : NTSTATUS;
  ack_Offset : LARGE_INTEGER;
  ack_Length : LARGE_INTEGER
}.

(** CF_CALLBACK_PARAMETERS::ValidateData. *)
Record CF_CALLBACK_PARAMETERS_ValidateData := {
  vd_RequiredFileOffset : LARGE_INTEGER;
  vd_RequiredLength : LARGE_INTEGER
}.

(** What a callback does on the host's thread: a line on std::wcout, a
    CfExecute acknowledging data, a call of m_notifyCallback. *)
Inductive Effect :=
| Written (line : Event)
| Acknowledged (opInfo : CF_OPERATION_INFO) (opParams : AckData)
| Notified (target : nat) (path : wstring) (event : wstring).

(** OnValidateData, lines 293-310.  It reads no member of the provider. *)
Definition OnValidateData (CallbackInfo : CF_CALLBACK_INFO)
    (ValidateData : CF_CALLBACK_PARAMETERS_ValidateData) : list Effect :=
  let opInfo :=
    {| op_Type := CF_OPERATION_TYPE_ACK_DATA;
       op_ConnectionKey := ConnectionKey CallbackInfo;
       op_TransferKey := vd_RequiredFileOffset ValidateData |} in
  let opParams :=
    {| ack_CompletionStatus := STATUS_SUCCESS;
       ack_Offset := vd_RequiredFileOffset ValidateData;
       ack_Length := vd_RequiredLength ValidateData |} in
  [Written (WcoutStr "Validate data for: " (NormalizedPath CallbackInfo));
   Acknowledged opInfo opParams].

(** OnCancelFetchData, lines 312-315. *)
Definition OnCancelFetchData (CallbackInfo : CF_CALLBACK_INFO) : list Effect :=
  [Written (WcoutStr "Cancel fetch data for: " (NormalizedPath CallbackInfo))].

(** The four handlers that forward to the notify sink (lines 317-329,
    339-344, 350-355) have one body, up to the event name. *)
Definition forward_to_sink (p : CloudFilesProvider)
    (CallbackInfo : CF_CALLBACK_INFO) (event : wstring) : list Effect :=
  match m_notifyCallback p with
  | Some target => [Notified target (NormalizedPath CallbackInfo) event]
  | None => []
  end.

Definition OnNotifyFileOpenCompletion (p : CloudFilesProvider)
    (CallbackInfo : CF_CALLBACK_INFO) : list Effect :=
  forward_to_sink p CallbackInfo "file_opened".

Definition OnNotifyFileCloseCompletion (p : CloudFilesProvider)
    (CallbackInfo : CF_CALLBACK_INFO) : list Effect :=
  forward_to_sink p CallbackInfo "file_closed".

Definition OnNotifyDelete (p : CloudFilesProvider)
    (CallbackInfo : CF_CALLBACK_INFO) : list Effect :=
  forward_to_sink p CallbackInfo "file_deleted".

Definition OnNotifyRename (p : CloudFilesProvider)
    (CallbackInfo : CF_CALLBACK_INFO) : list Effect :=
  forward_to_sink p CallbackInfo "file_renamed".

(** The four handlers that only write a line (lines 331-337, 346-348,
    357-359). *)
Definition OnNotifyDehydrate (CallbackInfo : CF_CALLBACK_INFO) : list Effect :=
  [Written (WcoutStr "Dehydrate notification for: "
              (NormalizedPath CallbackInfo))].

Definition OnNotifyDehydrateCompletion (CallbackInfo : CF_CALLBACK_INFO)
    : list Effect :=
  [Written (WcoutStr "Dehydrate completion for: "
              (NormalizedPath CallbackInfo))].

Definition OnNotifyDeleteCompletion (CallbackInfo : CF_CALLBACK_INFO)
    : list Effect :=
  [Written (WcoutStr "Delete completion for: " (NormalizedPath CallbackInfo))].

Definition OnNotifyRenameCompletion (CallbackInfo : CF_CALLBACK_INFO)
    : list Effect :=
  [Written (WcoutStr "Rename completion for: " (NormalizedPath CallbackInfo))].

(** The callback types RegisterSyncRoot puts in its table, lines 115-128. *)
Inductive CF_CALLBACK_TYPE :=
| CF_CALLBACK_TYPE_FETCH_DATA
| CF_CALLBACK_TYPE_VALIDATE_DATA
| CF_CALLBACK_TYPE_CANCEL_FETCH_DATA
| CF_CALLBACK_TYPE_NOTIFY_FILE_OPEN_COMPLETION
| CF_CALLBACK_TYPE_NOTIFY_FILE_CLOSE_COMPLETION
| CF_CALLBACK_TYPE_NOTIFY_DEHYDRATE
| CF_CALLBACK_TYPE_NOTIFY_DEHYDRATE_COMPLETION
| CF_CALLBACK_TYPE_NOTIFY_DELETE
| CF_CALLBACK_TYPE_NOTIFY_DELETE_COMPLETION
| CF_CALLBACK_TYPE_NOTIFY_RENAME
| CF_CALLBACK_TYPE_NOTIFY_RENAME_COMPLETION.

(** The table of lines 115-128, for the ten callbacks answered on the
    host's thread; CF_CALLBACK_TYPE_FETCH_DATA goes to OnFetchData, which
    works on the queue. *)
Definition callbackTable (type : CF_CALLBACK_TYPE) (p : CloudFilesProvider)
    (CallbackInfo : CF_CALLBACK_INFO)
    (ValidateData : CF_CALLBACK_PARAMETERS_ValidateData)
    : option (list Effect) :=
  match type with
  | CF_CALLBACK_TYPE_FETCH_DATA => None
  | CF_CALLBACK_TYPE_VALIDATE_DATA =>
      Some (OnValidateData CallbackInfo ValidateData)
  | CF_CALLBACK_TYPE_CANCEL_FETCH_DATA => Some (OnCancelFetchData CallbackInfo)
  | CF_CALLBACK_TYPE_NOTIFY_FILE_OPEN_COMPLETION =>
      Some (OnNotifyFileOpenCompletion p CallbackInfo)
  | CF_CALLBACK_TYPE_NOTIFY_FILE_CLOSE_COMPLETION =>
      Some (OnNotifyFileCloseCompletion p CallbackInfo)
  | CF_CALLBACK_TYPE_NOTIFY_DEHYDRATE => Some (OnNotifyDehydrate CallbackInfo)
  | CF_CALLBACK_TYPE_NOTIFY_DEHYDRATE_COMPLETION =>
      Some (OnNotifyDehydrateCompletion CallbackInfo)
  | CF_CALLBACK_TYPE_NOTIFY_DELETE => Some (OnNotifyDelete p CallbackInfo)
  | CF_CALLBACK_TYPE_NOTIFY_DELETE_COMPLETION =>
      Some (OnNotifyDeleteCompletion CallbackInfo)
  | CF_CALLBACK_TYPE_NOTIFY_RENAME => Some (OnNotifyRename p CallbackInfo)
  | CF_CALLBACK_TYPE_NOTIFY_RENAME_COMPLETION =>
      Some (OnNotifyRenameCompletion CallbackInfo)
  end.

Definition notifications (t : list Effect) : list (wstring * wstring) :=
  flat_map (fun e => match e with
                     | Notified _ path event => [(path, event)]
                     | _ => []
                     end) t.

Definition acknowledgements (t : list Effect)
    : list (CF_OPERATION_INFO * AckData) :=
  flat_map (fun e => match e with
                     | Acknowledged i a => [(i, a)]
                     | _ => []
                     end) t.

(** *** Reading more of a list of calls *)

Definition heap_freed (t : list Event) : list Z :=
  flat_map (fun e => match e with
                     | Call_HeapFree a => [a]
                     | _ => []
                     end) t.

Definition heap_requests (t : list Event) : list Z :=
  flat_map (fun e => match e with
                     | Call_HeapAlloc n => [n]
                     | _ => []
                     end) t.

(** The blocks the heap hands out to one CreatePlaceholderInfo: the second
    HeapAlloc is reached only when the first returned a block. *)
Definition heap_given (heap : HeapHost) : list Z :=
  match HeapAlloc_fileName heap with
  | None => []
  | Some a =>
      match HeapAlloc_fileIdentity heap with
      | None => [a]
      | Some b => [a; b]
      end
  end.

Definition created_directories (t : list Event) : list wstring :=
  flat_map (fun e => match e with
                     | Call_CreateDirectoryW f => [f]
                     | _ => []
                     end) t.

Definition registered_roots (t : list Event) : list wstring :=
  flat_map (fun e => match e with
                     | Call_CfRegisterSyncRoot f _ _ => [f]
                     | _ => []
                     end) t.

Definition connected_roots (t : list Event) : list wstring :=
  flat_map (fun e => match e with
                     | Call_CfConnectSyncRoot f => [f]
                     | _ => []
                     end) t.

Definition unregistered_roots (t : list Event) : list wstring :=
  flat_map (fun e => match e with
                     | Call_CfUnregisterSyncRoot f => [f]
                     | _ => []
                     end) t.

Definition in_sync_calls (t : list Event) : list (HANDLE * CF_IN_SYNC_STATE) :=
  flat_map (fun e => match e with
                     | Call_CfSetInSyncState h x => [(h, x)]
                     | _ => []
                     end) t.

Definition pin_calls (t : list Event) : list (HANDLE * CF_PIN_STATE) :=
  flat_map (fun e => match e with
                     | Call_CfSetPinState h x => [(h, x)]
                     | _ => []
                     end) t.


Definition transfer_keys (t : list Event) : list CF_TRANSFER_KEY :=
  map (fun x => op_TransferKey (fst x)) (transfers t).

(** The number a little-endian block of bytes holds. *)
Fixpoint bytes_value (bs : list BYTE) : Z :=
  match bs with
  | [] => 0
  | b :: rest => Z.of_N (Byte.to_N b) + 256 * bytes_value rest
  end.

(** CreateDirectoryW made the directory, or it was there already: the
    test of line 94 lets RegisterSyncRoot go on. *)
Definition directory_ready (host : RegisterHost) : bool :=
  CreateDirectoryW_ok host
  || (CreateDirectoryW_LastError host =? ERROR_ALREADY_EXISTS).

(** *** More about the threads *)

Section MoreThreads.
Context {platform : Platform}.

(** While Shutdown stands at join the provider is initialized and the stop
    flag is set. *)
Definition joining_owned (s : System) : Prop :=
  joining s = true ->
  m_initialized (provider s) = true /\ m_shouldStop (provider s) = true.

(** With the stop flag set the worker is never past the test of line 42
    with an item still to pop. *)
Definition stop_blocks_pop (s : System) : Prop :=
  m_shouldStop (provider s) = true ->
  m_workerThread (provider s) <> Running pc_pop.

(** The calls of the fetch source and the transfers follow the items the
    worker called: one call and one transfer per item, in order, the last
    item's transfer outstanding while the worker stands before it. *)
Definition calls_follow_items (s : System) : Prop :=
  match m_workerThread (provider s) with
  | Terminated =>
      exists r1 r2,
        map relativePath (executed s) = fetched_paths (output s) ++ r1 /\
        map transferKey (executed s) = transfer_keys (output s) ++ r2
  | Running (pc_transfer work _) =>
      map relativePath (executed s) = fetched_paths (output s) /\
      map transferKey (executed s)
      = transfer_keys (output s) ++ [transferKey work]
  | _ =>
      map relativePath (executed s) = fetched_paths (output s) /\
      map transferKey (executed s) = transfer_keys (output s)
  end.

(** What every schedule keeps true, beyond [sound]. *)
Definition well_run (s : System) : Prop :=
  sound s /\ joining_owned s /\ stop_blocks_pop s /\ calls_follow_items s.


(** The worker stands between two items: before the outer test, in the
    wait, or before lock.lock(). *)
Definition between_items (s : System) : option nat :=
  match m_workerThread (provider s) with
  | Running pc_outer_test => Some 1%nat
  | Running pc_wait => Some 3%nat
  | Running pc_relock => Some 3%nat
  | _ => None
  end.

End MoreThreads.

(** *** More to read and more inputs *)

(** The name under which a callback type reaches the notify sink, for the
    four types that do (the string literals of lines 320, 327, 342, 353). *)
Definition sink_event (type : CF_CALLBACK_TYPE) : option wstring :=
  match type with
  | CF_CALLBACK_TYPE_NOTIFY_FILE_OPEN_COMPLETION => Some "file_opened"
  | CF_CALLBACK_TYPE_NOTIFY_FILE_CLOSE_COMPLETION => Some "file_closed"
  | CF_CALLBACK_TYPE_NOTIFY_DELETE => Some "file_deleted"
  | CF_CALLBACK_TYPE_NOTIFY_RENAME => Some "file_renamed"
  | _ => None
  end.

(** What CfRegisterSyncRoot is handed: the registration structure and the
    Policies argument. *)
Definition registrations (t : list Event)
    : list (CF_SYNC_REGISTRATION * Pointer CF_SYNC_POLICIES) :=
  flat_map (fun e => match e with
                     | Call_CfRegisterSyncRoot _ r q => [(r, q)]
                     | _ => []
                     end) t.

(** More inputs for the examples: a time point (nanoseconds since the
    epoch), a host on which the directory is there already and which hands
    out key 42, and the schedule that brings the worker into its wait with
    two requests arriving behind it. *)
Definition a_time : Z := 1700000000123456789.

Definition second_host : RegisterHost :=
  {| CreateDirectoryW_ok := false;
     CreateDirectoryW_LastError := ERROR_ALREADY_EXISTS;
     CfRegisterSyncRoot_hr := S_OK; CfConnectSyncRoot_hr := S_OK;
     CfConnectSyncRoot_key := 42 |}.


(** * Properties *)

(** ** HRESULT arithmetic *)

Lemma to_HRESULT_small (x : Z) :
  0 <= x < 2 ^ 31 -> to_HRESULT x = x.
Proof.
  intros H. unfold to_HRESULT.
  rewrite Z.mod_small by lia.
  destruct (Z.ltb_spec x (2 ^ 31)); lia.
Qed.

Lemma to_HRESULT_high (x : Z) :
  2 ^ 31 <= x < 2 ^ 32 -> to_HRESULT x = x - 2 ^ 32.
Proof.
  intros H. unfold to_HRESULT.
  rewrite Z.mod_small by lia.
  destruct (Z.ltb_spec x (2 ^ 31)); lia.
Qed.

Lemma facility_bits_range (x : Z) :
  0 <= x ->
  2 ^ 31 <= Z.lor (Z.lor (Z.land x 0x0000FFFF) (Z.shiftl FACILITY_WIN32 16))
                  0x80000000 < 2 ^ 32.
Proof.
  intros Hx.
  set (a := Z.land x 0x0000FFFF).
  assert (Ha : 0 <= a < 2 ^ 16).
  { unfold a. change 0x0000FFFF with (Z.ones 16).
    rewrite Z.land_ones by lia. apply Z.mod_pos_bound. lia. }
  set (b := Z.lor a (Z.shiftl FACILITY_WIN32 16)).
  assert (Hb0 : 0 <= b) by (apply Z.lor_nonneg; split; [lia | cbv; discriminate]).
  assert (Hlb : Z.log2 b < 31).
  { unfold b. rewrite Z.log2_lor by (try lia; cbv; discriminate).
    apply Z.max_lub_lt.
    - destruct (Z.eq_dec a 0) as [->|]; [reflexivity|].
      apply Z.lt_trans with 16; [|lia]. apply Z.log2_lt_pow2; lia.
    - reflexivity. }
  set (v := Z.lor b 0x80000000).
  assert (Hv0 : 0 <= v) by (apply Z.lor_nonneg; split; [lia | cbv; discriminate]).
  assert (Hlv : Z.log2 v = 31).
  { unfold v. rewrite Z.log2_lor by (try lia; cbv; discriminate).
    change (Z.log2 0x80000000) with 31. lia. }
  assert (Hpos : 0 < v).
  { destruct (Z.eq_dec v 0) as [E|]; [|lia]. rewrite E in Hlv. discriminate. }
  split.
  - apply Z.log2_le_pow2; lia.
  - apply Z.log2_lt_pow2; lia.
Qed.

(** A nonzero Win32 error code always maps to a failing HRESULT. *)
Lemma HRESULT_FROM_WIN32_fails (error : DWORD) :
  0 < error < 2 ^ 32 -> FAILED (HRESULT_FROM_WIN32 error) = true.
Proof.
  intros H. unfold FAILED, HRESULT_FROM_WIN32.
  destruct (Z_lt_le_dec error (2 ^ 31)) as [Hlo|Hhi].
  - rewrite (to_HRESULT_small error) by lia.
    destruct (Z.leb_spec error 0); [lia|].
    rewrite to_HRESULT_high by (apply facility_bits_range; lia).
    pose proof (facility_bits_range error ltac:(lia)).
    apply Z.ltb_lt. lia.
  - rewrite (to_HRESULT_high error) by lia.
    destruct (Z.leb_spec (error - 2 ^ 32) 0); apply Z.ltb_lt; lia.
Qed.

Example HRESULT_FROM_WIN32_file_not_found :
  HRESULT_FROM_WIN32 ERROR_FILE_NOT_FOUND = to_HRESULT 0x80070002.
Proof. reflexivity. Qed.

Example HRESULT_FROM_WIN32_zero : HRESULT_FROM_WIN32 0 = S_OK.
Proof. reflexivity. Qed.

(** ** The member functions *)

Section MemberProperties.
Context {platform : Platform}.

Lemma transfers_app (a b : list Event) :
  transfers (a ++ b) = transfers a ++ transfers b.
Proof. apply flat_map_app. Qed.

Lemma progress_values_app (a b : list Event) :
  progress_values (a ++ b) = progress_values a ++ progress_values b.
Proof. apply flat_map_app. Qed.

Lemma closed_handles_app (a b : list Event) :
  closed_handles (a ++ b) = closed_handles a ++ closed_handles b.
Proof. apply flat_map_app. Qed.

Lemma disconnected_keys_app (a b : list Event) :
  disconnected_keys (a ++ b) = disconnected_keys a ++ disconnected_keys b.
Proof. apply flat_map_app. Qed.

Lemma disconnect_invalid (p : CloudFilesProvider) :
  m_connectionKey p = CF_CONNECTION_KEY_INVALID -> disconnect p = (p, []).
Proof.
  intros H. unfold disconnect. rewrite H, Z.eqb_refl. reflexivity.
Qed.

Lemma disconnect_leaves_invalid (p : CloudFilesProvider) :
  m_connectionKey (fst (disconnect p)) = CF_CONNECTION_KEY_INVALID.
Proof.
  unfold disconnect.
  destruct (Z.eqb_spec (m_connectionKey p) CF_CONNECTION_KEY_INVALID);
    simpl; auto.
Qed.

Lemma disconnect_keys (p : CloudFilesProvider) :
  disconnected_keys (snd (disconnect p)) =
  if m_connectionKey p =? CF_CONNECTION_KEY_INVALID then []
  else [m_connectionKey p].
Proof.
  unfold disconnect.
  destruct (m_connectionKey p =? CF_CONNECTION_KEY_INVALID); reflexivity.
Qed.

Lemma disconnect_never_invalid (p : CloudFilesProvider) :
  ~ In CF_CONNECTION_KEY_INVALID (disconnected_keys (snd (disconnect p))).
Proof.
  rewrite disconnect_keys.
  destruct (Z.eqb_spec (m_connectionKey p) CF_CONNECTION_KEY_INVALID);
    simpl; intuition congruence.
Qed.

Lemma UnregisterSyncRoot_unfold (p : CloudFilesProvider) (path : wstring)
    (hr : HRESULT) :
  UnregisterSyncRoot p path hr =
  mkOutcome hr (fst (disconnect p))
    ([WcoutStr "Unregistering sync root: " path] ++ snd (disconnect p)
     ++ [Call_CfUnregisterSyncRoot path]
     ++ (if FAILED hr
         then [WcoutNum "Failed to unregister sync root: 0x" hr] else [])).
Proof.
  unfold UnregisterSyncRoot. destruct (disconnect p) as [q d]. simpl.
  destruct (FAILED hr); rewrite <- ?app_assoc; simpl; rewrite ?app_nil_r;
    reflexivity.
Qed.

Lemma UnregisterSyncRoot_keys (p : CloudFilesProvider) (path : wstring)
    (hr : HRESULT) :
  disconnected_keys (calls (UnregisterSyncRoot p path hr)) =
  disconnected_keys (snd (disconnect p)).
Proof.
  rewrite UnregisterSyncRoot_unfold. simpl.
  rewrite disconnected_keys_app. simpl.
  destruct (FAILED hr); simpl; apply app_nil_r.
Qed.

(** C7, as the code has it: UnregisterSyncRoot first disconnects if a
    connection is held, that is, it hands the key it holds to
    CfDisconnectSyncRoot exactly when that key is not the invalid one, and
    leaves the invalid key in its place; then it asks the host, once, to
    drop the registration of the path it was given, logs a failing answer,
    and returns the host's answer, failing or not, as its own result. *)
Theorem UnregisterSyncRoot_returns_host_status (p : CloudFilesProvider)
    (syncRootPath : wstring) (CfUnregisterSyncRoot_hr : HRESULT) :
  let o := UnregisterSyncRoot p syncRootPath CfUnregisterSyncRoot_hr in
  let held := negb (m_connectionKey p =? CF_CONNECTION_KEY_INVALID) in
  returned o = CfUnregisterSyncRoot_hr /\
  calls o =
    [WcoutStr "Unregistering sync root: " syncRootPath]
    ++ (if held then [Call_CfDisconnectSyncRoot (m_connectionKey p)] else [])
    ++ [Call_CfUnregisterSyncRoot syncRootPath]
    ++ (if FAILED CfUnregisterSyncRoot_hr
        then [WcoutNum "Failed to unregister sync root: 0x"
                CfUnregisterSyncRoot_hr]
        else []) /\
  disconnected_keys (calls o) = (if held then [m_connectionKey p] else []) /\
  unregistered_roots (calls o) = [syncRootPath] /\
  after o = set_connectionKey p CF_CONNECTION_KEY_INVALID /\
  m_connectionKey (after o) = CF_CONNECTION_KEY_INVALID.
Proof.
  cbv zeta. rewrite UnregisterSyncRoot_unfold. unfold disconnect.
  destruct (Z.eqb_spec (m_connectionKey p) CF_CONNECTION_KEY_INVALID) as [E|E];
    cbn [negb fst snd returned calls after];
    destruct (FAILED CfUnregisterSyncRoot_hr);
    repeat match goal with |- _ /\ _ => split end;
    try reflexivity.
  all: try exact E.
  all: destruct p; unfold set_connectionKey; cbn in *; subst; reflexivity.
Qed.

Lemma CreatePlaceholderInfo_S_OK (relativePath : wstring)
    (basicInfo : FILE_BASIC_INFO) (fileSize : LARGE_INTEGER) (heap : HeapHost)
    (info : CF_PLACEHOLDER_CREATE_INFO) (t : list Event) :
  CreatePlaceholderInfo relativePath basicInfo fileSize heap = (S_OK, info, t) ->
  identity_of info =
  (Some (object_bytes sizeof_size_t (hasher relativePath)),
   Z.of_nat sizeof_size_t).
Proof.
  unfold CreatePlaceholderInfo.
  destruct (HeapAlloc_fileName heap) as [a|];
    [destruct (HeapAlloc_fileIdentity heap) as [b|]|];
    intros H; inversion H; subst; try reflexivity.
Qed.

(** C8: the identity CreatePlaceholderInfo derives is a function of the
    relative path alone.  Two derivations from equal paths, whatever the
    metadata, the file size and the heap's answers, carry the same identity
    bytes and the same identity length. *)
Theorem CreatePlaceholderInfo_identity_deterministic
    (path1 path2 : wstring) (basicInfo1 basicInfo2 : FILE_BASIC_INFO)
    (fileSize1 fileSize2 : LARGE_INTEGER) (heap1 heap2 : HeapHost)
    (info1 info2 : CF_PLACEHOLDER_CREATE_INFO) (t1 t2 : list Event) :
  path1 = path2 ->
  CreatePlaceholderInfo path1 basicInfo1 fileSize1 heap1 = (S_OK, info1, t1) ->
  CreatePlaceholderInfo path2 basicInfo2 fileSize2 heap2 = (S_OK, info2, t2) ->
  option_map snd (FileIdentity info1) = option_map snd (FileIdentity info2) /\
  FileIdentityLength info1 = FileIdentityLength info2.
Proof.
  intros Hp H1 H2. subst path2.
  apply CreatePlaceholderInfo_S_OK in H1.
  apply CreatePlaceholderInfo_S_OK in H2.
  unfold identity_of in *. split; congruence.
Qed.

Lemma HydrateFile_opened (p : CloudFilesProvider) (relativePath : wstring)
    (data : list BYTE) (progressCallback : ProgressCallback) (host : FileHost) :
  CreateFileW_handle host <> INVALID_HANDLE_VALUE ->
  HydrateFile p relativePath data progressCallback host =
  mkOutcome (cfapi_hr host) p
    ([WcoutStr "Hydrating file: " relativePath;
      Call_CreateFileW (GetFullPath p relativePath);
      Call_CfExecute
        (transfer_opInfo (m_connectionKey p) CF_TRANSFER_KEY_INVALID)
        (transfer_opParams data)]
     ++ (if FAILED (cfapi_hr host)
         then [WcoutNum "Failed to transfer data: 0x" (cfapi_hr host)] else [])
     ++ [Call_CloseHandle (CreateFileW_handle host)]
     ++ match progressCallback with
        | Some target => [Call_progressCallback target double_1_0]
        | None => []
        end).
Proof.
  intros H. unfold HydrateFile, GetFileHandle.
  destruct (Z.eqb_spec (CreateFileW_handle host) INVALID_HANDLE_VALUE);
    [contradiction|].
  destruct (FAILED (cfapi_hr host)), progressCallback; reflexivity.
Qed.

Lemma HydrateFile_not_opened (p : CloudFilesProvider) (relativePath : wstring)
    (data : list BYTE) (progressCallback : ProgressCallback) (host : FileHost) :
  CreateFileW_handle host = INVALID_HANDLE_VALUE ->
  HydrateFile p relativePath data progressCallback host =
  mkOutcome (HRESULT_FROM_WIN32 (CreateFileW_LastError host)) p
    [WcoutStr "Hydrating file: " relativePath;
     Call_CreateFileW (GetFullPath p relativePath);
     WcoutNum "Failed to get file handle: " (CreateFileW_LastError host)].
Proof.
  intros H. unfold HydrateFile, GetFileHandle. rewrite H. reflexivity.
Qed.

(** C9: once the file is open, a supplied progress callback is called
    exactly once, with 1.0, also when CfExecute fails, and HydrateFile
    returns that failing status.  An empty callback is not called. *)
Theorem HydrateFile_progress_despite_failed_transfer
    (p : CloudFilesProvider) (relativePath : wstring) (data : list BYTE)
    (target : nat) (host : FileHost) :
  CreateFileW_handle host <> INVALID_HANDLE_VALUE ->
  FAILED (cfapi_hr host) = true ->
  let o := HydrateFile p relativePath data (Some target) host in
  progress_values (calls o) = [double_1_0] /\
  returned o = cfapi_hr host /\
  FAILED (returned o) = true /\
  progress_values (calls (HydrateFile p relativePath data None host)) = [].
Proof.
  intros Hopen Hfail. cbv zeta.
  rewrite !HydrateFile_opened by assumption.
  rewrite Hfail. simpl. auto.
Qed.

Lemma transfer_length_small (data : list BYTE) :
  Z.of_nat (List.length data) < 2 ^ 32 ->
  td_Length (transfer_opParams data) = Z.of_nat (List.length data).
Proof.
  intros H. simpl. unfold to_DWORD. apply Z.mod_small. lia.
Qed.

(** C5, as the code has it.  With the file open and the host transfer
    succeeding: one transfer at offset 0, status success, over the buffer,
    whose length field is the buffer length cast to DWORD (the buffer
    length itself below 2^32 bytes); one call of the progress callback, with
    1.0; the handle closed; success returned.  With the file open and the
    transfer failing: the handle is closed all the same and the failure is
    returned.  With the file not opened and a nonzero last error: a failure
    is returned and there is no handle to close. *)
Theorem HydrateFile_outcome
    (p : CloudFilesProvider) (relativePath : wstring) (data : list BYTE)
    (target : nat) (host : FileHost) :
  let o := HydrateFile p relativePath data (Some target) host in
  (CreateFileW_handle host <> INVALID_HANDLE_VALUE ->
     transfers (calls o) =
       [(transfer_opInfo (m_connectionKey p) CF_TRANSFER_KEY_INVALID,
         {| td_CompletionStatus := STATUS_SUCCESS;
            td_Buffer := data;
            td_Length := Z.of_nat (List.length data) mod 2 ^ 32;
            td_Offset := 0 |})] /\
     (Z.of_nat (List.length data) < 2 ^ 32 ->
        map (fun x => td_Length (snd x)) (transfers (calls o)) =
          [Z.of_nat (List.length data)]) /\
     progress_values (calls o) = [double_1_0] /\
     closed_handles (calls o) = [CreateFileW_handle host] /\
     returned o = cfapi_hr host) /\
  (CreateFileW_handle host = INVALID_HANDLE_VALUE ->
     0 < CreateFileW_LastError host < 2 ^ 32 ->
     FAILED (returned o) = true /\
     transfers (calls o) = [] /\
     progress_values (calls o) = [] /\
     closed_handles (calls o) = []).
Proof.
  cbv zeta. split.
  - intros Hopen. rewrite HydrateFile_opened by assumption.
    cbn [calls returned].
    assert (Ht : transfers
                   ([WcoutStr "Hydrating file: " relativePath;
                     Call_CreateFileW (GetFullPath p relativePath);
                     Call_CfExecute
                       (transfer_opInfo (m_connectionKey p)
                          CF_TRANSFER_KEY_INVALID)
                       (transfer_opParams data)]
                    ++ (if FAILED (cfapi_hr host)
                        then [WcoutNum "Failed to transfer data: 0x"
                                (cfapi_hr host)] else [])
                    ++ [Call_CloseHandle (CreateFileW_handle host)]
                    ++ [Call_progressCallback target double_1_0]) =
                 [(transfer_opInfo (m_connectionKey p) CF_TRANSFER_KEY_INVALID,
                   transfer_opParams data)]).
    { destruct (FAILED (cfapi_hr host)); reflexivity. }
    rewrite Ht. repeat split.
    + intros Hsmall. cbn [map snd].
      rewrite transfer_length_small by assumption. reflexivity.
    + destruct (FAILED (cfapi_hr host)); reflexivity.
    + destruct (FAILED (cfapi_hr host)); reflexivity.
  - intros Hbad Herr. rewrite HydrateFile_not_opened by assumption.
    cbn [calls returned]. repeat split.
    apply HRESULT_FROM_WIN32_fails. assumption.
Qed.

Lemma opened_paths_HydrateFile (p : CloudFilesProvider) (rel : wstring)
    (data : list BYTE) (cb : ProgressCallback) (host : FileHost) :
  opened_paths (calls (HydrateFile p rel data cb host)) = [GetFullPath p rel].
Proof.
  destruct (Z.eq_dec (CreateFileW_handle host) INVALID_HANDLE_VALUE) as [E|E].
  - rewrite HydrateFile_not_opened by assumption. reflexivity.
  - rewrite HydrateFile_opened by assumption. simpl.
    destruct (FAILED (cfapi_hr host)), cb; reflexivity.
Qed.

Lemma opened_paths_SetInSyncState (p : CloudFilesProvider) (rel : wstring)
    (state : CF_IN_SYNC_STATE) (host : FileHost) :
  opened_paths (calls (SetInSyncState p rel state host)) = [GetFullPath p rel].
Proof.
  unfold SetInSyncState, GetFileHandle.
  destruct (CreateFileW_handle host =? INVALID_HANDLE_VALUE); reflexivity.
Qed.

Lemma opened_paths_SetPinState (p : CloudFilesProvider) (rel : wstring)
    (state : CF_PIN_STATE) (host : FileHost) :
  opened_paths (calls (SetPinState p rel state host)) = [GetFullPath p rel].
Proof.
  unfold SetPinState, GetFileHandle.
  destruct (CreateFileW_handle host =? INVALID_HANDLE_VALUE); reflexivity.
Qed.

Lemma placeholder_roots_CreatePlaceholder (p : CloudFilesProvider)
    (rel : wstring) (basicInfo : FILE_BASIC_INFO) (fileSize : LARGE_INTEGER)
    (heap : HeapHost) (hr : HRESULT) (a b : Z) :
  HeapAlloc_fileName heap = Some a ->
  HeapAlloc_fileIdentity heap = Some b ->
  placeholder_roots (calls (CreatePlaceholder p rel basicInfo fileSize heap hr))
  = [m_syncRootPath p].
Proof.
  intros Ha Hb. unfold CreatePlaceholder, CreatePlaceholderInfo.
  rewrite Ha, Hb. change (FAILED S_OK) with false. cbv iota.
  destruct (FAILED hr); reflexivity.
Qed.

Lemma RegisterSyncRoot_path (p : CloudFilesProvider)
    (syncRootPath displayName : wstring) (host : RegisterHost) :
  m_syncRootPath (after (RegisterSyncRoot p syncRootPath displayName host))
  = syncRootPath.
Proof.
  unfold RegisterSyncRoot, CreateSyncRegistration.
  change (FAILED S_OK) with false. cbv iota.
  destruct (negb (CreateDirectoryW_ok host)
            && negb (CreateDirectoryW_LastError host =? ERROR_ALREADY_EXISTS));
    [reflexivity|].
  destruct (FAILED (CfRegisterSyncRoot_hr host)); [reflexivity|].
  destruct (FAILED (CfConnectSyncRoot_hr host)); reflexivity.
Qed.

Lemma RegisterSyncRoot_directory_failure (p : CloudFilesProvider)
    (syncRootPath displayName : wstring) (host : RegisterHost) :
  CreateDirectoryW_ok host = false ->
  CreateDirectoryW_LastError host <> ERROR_ALREADY_EXISTS ->
  RegisterSyncRoot p syncRootPath displayName host =
  mkOutcome (HRESULT_FROM_WIN32 (CreateDirectoryW_LastError host))
    (set_syncRootPath p syncRootPath)
    [WcoutStr "Registering sync root: " syncRootPath;
     Call_CreateDirectoryW syncRootPath;
     WcoutNum "Failed to create sync root directory: "
       (CreateDirectoryW_LastError host)].
Proof.
  intros Hok Herr. unfold RegisterSyncRoot. rewrite Hok.
  destruct (Z.eqb_spec (CreateDirectoryW_LastError host) ERROR_ALREADY_EXISTS);
    [contradiction|]. reflexivity.
Qed.

(** C10: RegisterSyncRoot stores its argument in m_syncRootPath ahead of
    every host call, so on every way out, whatever the host answers and
    whatever is returned, the stored path is the argument; when the first
    host call (the directory creation) already fails, that store is the
    only change to the provider.  GetFullPath, and through it HydrateFile,
    SetInSyncState and SetPinState, and CreatePlaceholder then work on that
    path. *)
Theorem RegisterSyncRoot_stores_path_first (p : CloudFilesProvider)
    (syncRootPath displayName : wstring) (host : RegisterHost) :
  let o := RegisterSyncRoot p syncRootPath displayName host in
  m_syncRootPath (after o) = syncRootPath /\
  (CreateDirectoryW_ok host = false ->
   CreateDirectoryW_LastError host <> ERROR_ALREADY_EXISTS ->
     returned o = HRESULT_FROM_WIN32 (CreateDirectoryW_LastError host) /\
     after o = set_syncRootPath p syncRootPath) /\
  (forall rel, GetFullPath (after o) rel
               = (syncRootPath ++ "\" ++ rel)%string) /\
  (forall rel data cb fh,
     opened_paths (calls (HydrateFile (after o) rel data cb fh))
     = [(syncRootPath ++ "\" ++ rel)%string]) /\
  (forall rel state fh,
     opened_paths (calls (SetInSyncState (after o) rel state fh))
     = [(syncRootPath ++ "\" ++ rel)%string]) /\
  (forall rel state fh,
     opened_paths (calls (SetPinState (after o) rel state fh))
     = [(syncRootPath ++ "\" ++ rel)%string]) /\
  (forall rel basicInfo fileSize heap hr a b,
     HeapAlloc_fileName heap = Some a ->
     HeapAlloc_fileIdentity heap = Some b ->
     placeholder_roots
       (calls (CreatePlaceholder (after o) rel basicInfo fileSize heap hr))
     = [syncRootPath]).
Proof.
  cbv zeta.
  pose proof (RegisterSyncRoot_path p syncRootPath displayName host) as Hp.
  assert (Hfull : forall rel,
             GetFullPath
               (after (RegisterSyncRoot p syncRootPath displayName host)) rel
             = (syncRootPath ++ "\" ++ rel)%string).
  { intros rel. unfold GetFullPath. rewrite Hp. reflexivity. }
  split; [exact Hp|]. split.
  { intros Hok Herr.
    rewrite RegisterSyncRoot_directory_failure by assumption. auto. }
  split; [exact Hfull|]. split.
  { intros. rewrite opened_paths_HydrateFile. rewrite Hfull. reflexivity. }
  split.
  { intros. rewrite opened_paths_SetInSyncState, Hfull. reflexivity. }
  split.
  { intros. rewrite opened_paths_SetPinState, Hfull. reflexivity. }
  intros rel basicInfo fileSize heap hr a b Ha Hb.
  rewrite (placeholder_roots_CreatePlaceholder _ _ _ _ _ _ a b) by assumption.
  rewrite Hp. reflexivity.
Qed.

End MemberProperties.

(** ** The worker loop *)

Section WorkerProperties.
Context {platform : Platform}.

Ltac open_system s :=
  destruct s as [[ini root key th mu q stop fcb ncb] out jn sub exe];
  cbn [provider output joining submitted executed m_initialized
       m_syncRootPath m_connectionKey m_workerThread m_queueMutex
       m_workQueue m_shouldStop m_fetchDataCallback m_notifyCallback] in *.

Ltac split_in H :=
  match type of H with
  | context [match ?x with _ => _ end] =>
      lazymatch x with
      | context [match _ with _ => _ end] => fail
      | _ => (is_var x; destruct x) || destruct x eqn:?
      end
  end.

Ltac run_steps :=
  cbv beta iota zeta delta
    [run fold_left worker_round exec step worker_step Initialize
     Shutdown_stop Shutdown_join OnFetchData disconnect SetFetchDataCallback
     at_pc with_provider say with_joining note_submitted note_executed
     set_initialized set_syncRootPath set_connectionKey set_workerThread
     set_queueMutex set_workQueue set_shouldStop set_fetchDataCallback
     set_notifyCallback provider output joining submitted executed
     m_initialized m_syncRootPath m_connectionKey m_workerThread
     m_queueMutex m_workQueue m_shouldStop m_fetchDataCallback
     m_notifyCallback negb andb orb popped in_flight].

Ltac run_steps_in H :=
  cbv beta iota zeta delta
    [run fold_left worker_round exec step worker_step Initialize
     Shutdown_stop Shutdown_join OnFetchData disconnect SetFetchDataCallback
     at_pc with_provider say with_joining note_submitted note_executed
     set_initialized set_syncRootPath set_connectionKey set_workerThread
     set_queueMutex set_workQueue set_shouldStop set_fetchDataCallback
     set_notifyCallback provider output joining submitted executed
     m_initialized m_syncRootPath m_connectionKey m_workerThread
     m_queueMutex m_workQueue m_shouldStop m_fetchDataCallback
     m_notifyCallback negb andb orb popped in_flight] in H.

Ltac unfold_step H :=
  unfold step, Initialize, Shutdown_stop, Shutdown_join, OnFetchData,
    worker_step, RegisterSyncRoot, UnregisterSyncRoot, CreateSyncRegistration,
    disconnect in H.

Lemma step_thread_owned (s s' : System) (a : Action) :
  step s a = Some s' -> thread_owned s -> thread_owned s'.
Proof.
  unfold thread_owned. intros Hstep Hinv. open_system s.
  unfold_step Hstep.
  destruct th as [|[]| |]; destruct a; cbn in Hstep;
    repeat (split_in Hstep; cbn in Hstep; try discriminate);
    inversion Hstep; subst; cbn in *; auto;
    try (intros E; discriminate E);
    try (intros E; destruct (Hinv E); discriminate).
Qed.

Lemma step_accounted (s s' : System) (a : Action) :
  step s a = Some s' -> thread_owned s -> accounted s -> accounted s'.
Proof.
  unfold accounted, thread_owned, popped. intros Hstep Hown Hinv.
  open_system s. unfold_step Hstep.
  destruct th as [|[]| |]; destruct a; cbn in Hstep;
    repeat (split_in Hstep; cbn in Hstep; try discriminate);
    inversion Hstep; subst; cbn in *; subst;
    try (destruct (Hown eq_refl); discriminate);
    rewrite <- ?app_assoc; cbn; rewrite ?app_nil_r; reflexivity.
Qed.

Lemma step_mutex_owned (s s' : System) (a : Action) :
  step s a = Some s' -> thread_owned s -> mutex_owned s -> mutex_owned s'.
Proof.
  unfold mutex_owned, thread_owned. intros Hstep Hown Hinv.
  open_system s. unfold_step Hstep.
  destruct th as [|[]| |]; destruct a; cbn in Hstep;
    repeat (split_in Hstep; cbn in Hstep; try discriminate);
    inversion Hstep; subst; cbn in *; subst;
    try (destruct (Hown eq_refl); discriminate);
    try reflexivity; try discriminate.
Qed.

Lemma exec_invariant (s : System) (a : Action) :
  sound s -> sound (exec s a).
Proof.
  intros (Ho & Hm & Ha). unfold exec.
  destruct (step s a) as [s'|] eqn:E; [|repeat split; assumption].
  split; [eapply step_thread_owned; eauto|].
  split; [eapply step_mutex_owned | eapply step_accounted]; eauto.
Qed.

Lemma run_invariant (schedule : list Action) (s : System) :
  sound s -> sound (run schedule s).
Proof.
  revert s. induction schedule as [|a rest IH]; intros s H; [exact H|].
  cbn. apply IH. apply exec_invariant. exact H.
Qed.

Lemma process_start_invariant : sound process_start.
Proof. split; [intros _; left|split]; reflexivity. Qed.

Lemma run_app (a b : list Action) (s : System) :
  run (a ++ b) s = run b (run a s).
Proof. apply fold_left_app. Qed.

(** One round of the worker on a queue whose head's fetch returns. *)
Lemma worker_round_runs (s : System) (f : wstring -> FetchOutcome)
    (work : WorkItem) (rest : list WorkItem) (data : list BYTE) (hr : HRESULT) :
  m_workerThread (provider s) = Running pc_inner_test ->
  m_shouldStop (provider s) = false ->
  m_fetchDataCallback (provider s) = Some f ->
  m_workQueue (provider s) = work :: rest ->
  f (relativePath work) = Returned data ->
  let s' := run (worker_round hr) s in
  m_workerThread (provider s') = Running pc_inner_test /\
  m_shouldStop (provider s') = false /\
  m_fetchDataCallback (provider s') = Some f /\
  m_workQueue (provider s') = rest /\
  executed s' = executed s ++ [work] /\
  submitted s' = submitted s /\
  fetched_paths (output s') = fetched_paths (output s) ++ [relativePath work] /\
  transfers (output s') = transfers (output s) ++ [transfer_of s work data].
Proof.
  intros Hth Hstop Hf Hq Hret. open_system s. subst.
  change (worker_round hr)
    with ([Act_Worker hr; Act_Worker hr; Act_Worker hr]
          ++ [Act_Worker hr; Act_Worker hr]).
  rewrite run_app.
  match goal with
  | |- context [run [_; _; _] ?s0] =>
      let E := fresh "E" in
      let s3 := fresh "s3" in
      remember (run [Act_Worker hr; Act_Worker hr; Act_Worker hr] s0)
        as s3 eqn:E;
      run_steps_in E; rewrite Hret in E; subst s3
  end.
  run_steps.
  unfold fetched_paths, transfers, transfer_of.
  destruct (FAILED hr); cbn; rewrite <- ?app_assoc, !flat_map_app; cbn;
    rewrite ?app_nil_r; repeat split; reflexivity.
Qed.

(** With no stop requested and a fetch source that returns for every
    queued path, the worker calls every queued item, front first. *)
Lemma worker_drains (q : list WorkItem) :
  forall (s : System) (f : wstring -> FetchOutcome) (hrs : list HRESULT),
    m_workerThread (provider s) = Running pc_inner_test ->
    m_shouldStop (provider s) = false ->
    m_fetchDataCallback (provider s) = Some f ->
    m_workQueue (provider s) = q ->
    Forall (fun w => exists d, f (relativePath w) = Returned d) q ->
    List.length hrs = List.length q ->
    let s' := run (flat_map worker_round hrs) s in
    executed s' = executed s ++ q /\
    m_workQueue (provider s') = [] /\
    submitted s' = submitted s /\
    fetched_paths (output s') =
      fetched_paths (output s) ++ map relativePath q.
Proof.
  induction q as [|w rest IH]; intros s f hrs Hth Hstop Hf Hq Hall Hlen.
  - destruct hrs; [|discriminate]. cbn. rewrite !app_nil_r. auto.
  - destruct hrs as [|hr hrs]; [discriminate|].
    inversion Hall as [|? ? [d Hd] Hall']; subst.
    cbn zeta. cbn [flat_map]. rewrite run_app.
    destruct (worker_round_runs s f w rest d hr Hth Hstop Hf Hq Hd)
      as (Hth1 & Hstop1 & Hf1 & Hq1 & He1 & Hs1 & Hp1 & _).
    destruct (IH (run (worker_round hr) s) f hrs Hth1 Hstop1 Hf1 Hq1 Hall')
      as (He & Hq' & Hs & Hp).
    { cbn in Hlen. congruence. }
    rewrite He, Hq', Hs, Hp, He1, Hs1, Hp1.
    rewrite <- !app_assoc. cbn. auto.
Qed.

(** C1: in every state the process can reach, under every schedule of
    Initialize, Shutdown, SetFetchDataCallback, OnFetchData and worker
    steps, the items the worker has called are an initial segment of the
    items pushed, in push order: what was pushed is, in order, what was
    called, then the item popped and about to be called, then the queue.
    So no item is called twice and none is skipped.  And nothing is lost
    while no stop is requested: the worker calls every queued item whose
    fetch returns, and the fetch source sees the paths in queue order. *)
Theorem worker_executes_in_submission_order :
  (forall schedule : list Action,
     let s := run schedule process_start in
     submitted s = executed s ++ popped s ++ m_workQueue (provider s) /\
     (NoDup (submitted s) -> NoDup (executed s))) /\
  (forall (s : System) (f : wstring -> FetchOutcome) (hrs : list HRESULT),
     m_workerThread (provider s) = Running pc_inner_test ->
     m_shouldStop (provider s) = false ->
     m_fetchDataCallback (provider s) = Some f ->
     Forall (fun w => exists d, f (relativePath w) = Returned d)
       (m_workQueue (provider s)) ->
     List.length hrs = List.length (m_workQueue (provider s)) ->
     let s' := run (flat_map worker_round hrs) s in
     executed s' = executed s ++ m_workQueue (provider s) /\
     fetched_paths (output s') =
       fetched_paths (output s) ++ map relativePath (m_workQueue (provider s)) /\
     m_workQueue (provider s') = []).
Proof.
  split.
  - intros schedule s.
    destruct (run_invariant schedule process_start process_start_invariant)
      as (_ & _ & Hacc).
    fold s in Hacc. unfold accounted in Hacc. split; [exact Hacc|].
    intros Hnd. rewrite Hacc in Hnd. apply NoDup_app_remove_r in Hnd.
    exact Hnd.
  - intros s f hrs Hth Hstop Hf Hall Hlen.
    destruct (worker_drains (m_workQueue (provider s)) s f hrs
                Hth Hstop Hf eq_refl Hall Hlen) as (He & Hq & _ & Hp).
    auto.
Qed.

(** After std::terminate no schedule changes anything. *)
Lemma terminated_is_final (schedule : list Action) (s : System) :
  m_workerThread (provider s) = Terminated -> run schedule s = s.
Proof.
  intros H. induction schedule as [|a rest IH]; [reflexivity|].
  cbn. unfold exec at 2. unfold step. rewrite H. exact IH.
Qed.

Lemma raising_item_terminates (s : System) (work : WorkItem) (hr : HRESULT) :
  m_workerThread (provider s) = Running (pc_work work) ->
  fetch_raises s work ->
  let s' := exec s (Act_Worker hr) in
  m_workerThread (provider s') = Terminated /\
  executed s' = executed s ++ [work] /\
  m_workQueue (provider s') = m_workQueue (provider s) /\
  transfers (output s') = transfers (output s).
Proof.
  unfold fetch_raises. intros Hth Hraise. open_system s. subst.
  destruct fcb as [f|]; run_steps; [rewrite Hraise|]; cbn;
    rewrite ?transfers_app; cbn; rewrite ?app_nil_r; auto.
Qed.

Lemma failed_transfer_is_logged (s : System) (work : WorkItem)
    (data : list BYTE) (hr : HRESULT) :
  m_workerThread (provider s) = Running (pc_transfer work data) ->
  FAILED hr = true ->
  let s' := exec s (Act_Worker hr) in
  provider s' = set_workerThread (provider s) (Running pc_relock) /\
  executed s' = executed s /\
  output s' =
    output s
    ++ [Call_CfExecute (fst (transfer_of s work data))
          (snd (transfer_of s work data));
        WcoutNum "Failed to transfer data in callback: 0x" hr].
Proof.
  intros Hth Hfail. open_system s. subst.
  run_steps. rewrite Hfail. cbn. auto.
Qed.

Lemma relock_enters_test (s : System) (hr : HRESULT) :
  m_workerThread (provider s) = Running pc_relock ->
  m_queueMutex (provider s) = false ->
  exec s (Act_Worker hr) =
  with_provider s
    (set_workerThread (set_queueMutex (provider s) true)
       (Running pc_inner_test)).
Proof.
  intros Hth Hmu. open_system s. subst. reflexivity.
Qed.

(** C2, as the code has it.  The lambda has no handler.  An item whose
    fetch leaves by an exception ends the process in std::terminate: the
    worker does not go on, no transfer is issued for the item and no later
    item is ever called.  What the loop does get past is a failing host
    transfer inside an item: it is logged and, with no stop requested, the
    worker goes on to call every item still queued. *)
Theorem worker_survives_failed_transfer_not_exception :
  (forall (s : System) (work : WorkItem) (hr : HRESULT),
     m_workerThread (provider s) = Running (pc_work work) ->
     fetch_raises s work ->
     let s' := exec s (Act_Worker hr) in
     m_workerThread (provider s') = Terminated /\
     executed s' = executed s ++ [work] /\
     transfers (output s') = transfers (output s) /\
     forall schedule, run schedule s' = s') /\
  (forall (s : System) (work : WorkItem) (data : list BYTE) (hr : HRESULT)
          (f : wstring -> FetchOutcome) (hrs : list HRESULT),
     m_workerThread (provider s) = Running (pc_transfer work data) ->
     FAILED hr = true ->
     m_queueMutex (provider s) = false ->
     m_shouldStop (provider s) = false ->
     m_fetchDataCallback (provider s) = Some f ->
     Forall (fun w => exists d, f (relativePath w) = Returned d)
       (m_workQueue (provider s)) ->
     List.length hrs = List.length (m_workQueue (provider s)) ->
     let s1 := exec s (Act_Worker hr) in
     let s2 := run (Act_Worker hr :: flat_map worker_round hrs) s1 in
     output s1 =
       output s
       ++ [Call_CfExecute (fst (transfer_of s work data))
             (snd (transfer_of s work data));
           WcoutNum "Failed to transfer data in callback: 0x" hr] /\
     m_workerThread (provider s1) = Running pc_relock /\
     executed s2 = executed s ++ m_workQueue (provider s) /\
     m_workQueue (provider s2) = []).
Proof.
  split.
  - intros s work hr Hth Hraise.
    destruct (raising_item_terminates s work hr Hth Hraise)
      as (Ht & He & _ & Htr).
    cbv zeta. repeat split; auto.
    intros schedule. apply terminated_is_final. exact Ht.
  - intros s work data hr f hrs Hth Hfail Hmu Hstop Hf Hall Hlen.
    destruct (failed_transfer_is_logged s work data hr Hth Hfail)
      as (Hp & He & Ho).
    cbv zeta. split; [exact Ho|]. split; [rewrite Hp; reflexivity|].
    change (run (Act_Worker hr :: flat_map worker_round hrs)
              (exec s (Act_Worker hr)))
      with (run (flat_map worker_round hrs)
              (exec (exec s (Act_Worker hr)) (Act_Worker hr))).
    rewrite (relock_enters_test (exec s (Act_Worker hr)) hr)
      by (rewrite Hp; first [reflexivity | exact Hmu]).
    set (s2 := with_provider (exec s (Act_Worker hr)) _).
    assert (Hq2 : m_workQueue (provider s2) = m_workQueue (provider s))
      by (unfold s2; cbn; rewrite Hp; reflexivity).
    assert (He2 : executed s2 = executed s) by exact He.
    destruct (worker_drains (m_workQueue (provider s)) s2 f hrs) as (A & B & _).
    + unfold s2. reflexivity.
    + unfold s2. cbn. rewrite Hp. exact Hstop.
    + unfold s2. cbn. rewrite Hp. exact Hf.
    + exact Hq2.
    + exact Hall.
    + exact Hlen.
    + rewrite A, B, He2. auto.
Qed.

Lemma transfers_say (t : list Event) (e : list Event) :
  transfers e = [] -> transfers (t ++ e) = transfers t.
Proof. intros H. rewrite transfers_app, H. apply app_nil_r. Qed.

(** Between the stop request and the return of the lambda, a step of the
    worker brings it one step nearer to the return, and a fetch request
    only lengthens the queue. *)
Lemma stopping_step (s0 s : System) (work : WorkItem) (data : list BYTE)
    (k : nat) (a : Action) :
  stopping s0 work data k s ->
  is_worker_or_fetch a = true ->
  stopping s0 work data (if is_worker a then Nat.pred k else k) (exec s a).
Proof.
  intros (Hk & Hth & Hmu & Hstop & Hini & Hjn & Hkey & Hf
          & (later & Hq & Hsub) & Hex & Htr) Ha.
  unfold stopping. open_system s. subst th mu stop ini jn key.
  destruct a; try discriminate Ha; cbn [is_worker].
  - (* a fetch request *)
    destruct k as [|[|[|[|[|[|k]]]]]]; try lia;
      cbn [stopping_thread Nat.eqb Nat.leb] in *;
      destruct fcb as [f|]; run_steps; cbn [stopping_thread Nat.eqb Nat.leb];
      repeat split;
      rewrite ?transfers_say by reflexivity;
      try first [ assumption | lia
                | exists later; split; assumption
                | exists (later ++
                          [{| relativePath := NormalizedPath CallbackInfo;
                              transferKey := RequiredFileOffset FetchData |}]);
                  rewrite Hq, Hsub, <- !app_assoc; split; reflexivity ].
  - (* a step of the worker *)
    destruct k as [|[|[|[|[|[|k]]]]]]; try lia;
      cbn [stopping_thread Nat.eqb Nat.leb Nat.pred] in *;
      try (destruct (Hf eq_refl) as (f & Ef & Hret); subst fcb);
      run_steps_in Hex; destruct q;
      run_steps; rewrite ?Hret; run_steps;
      cbn [stopping_thread Nat.eqb Nat.leb Nat.pred];
      try (destruct (FAILED CfExecute_hr));
      repeat split;
      try first [ assumption | lia | discriminate
                | exists later; split; assumption
                | rewrite <- Hex, <- app_assoc; reflexivity
                | rewrite <- Hex, app_nil_r; reflexivity
                | rewrite transfers_app, Htr, ?app_nil_r; reflexivity ].
Qed.

Lemma worker_steps_cons (a : Action) (rest : list Action) :
  worker_steps (a :: rest) =
  ((if is_worker a then 1 else 0) + worker_steps rest)%nat.
Proof. unfold worker_steps. cbn. destruct (is_worker a); reflexivity. Qed.

Lemma stopping_run (s0 : System) (work : WorkItem) (data : list BYTE)
    (schedule : list Action) :
  forall (s : System) (k : nat),
    stopping s0 work data k s ->
    forallb is_worker_or_fetch schedule = true ->
    stopping s0 work data (k - worker_steps schedule) (run schedule s).
Proof.
  induction schedule as [|a rest IH]; intros s k Hs Hall.
  - cbn. rewrite Nat.sub_0_r. exact Hs.
  - cbn in Hall. apply andb_prop in Hall as [Ha Hrest].
    cbn [run fold_left]. rewrite worker_steps_cons.
    pose proof (stopping_step s0 s work data k a Hs Ha) as Hstep.
    specialize (IH (exec s a) _ Hstep Hrest). clear Hstep Hrest.
    rename IH into Hrest.
    fold (run rest (exec s a)) in *.
    destruct (is_worker a);
      [replace (k - (1 + worker_steps rest))%nat
         with (Nat.pred k - worker_steps rest)%nat by lia
      |replace (k - (0 + worker_steps rest))%nat
         with (k - worker_steps rest)%nat by lia]; exact Hrest.
Qed.

(** The stop request of Shutdown, made while an item is in flight. *)
Lemma stop_request_starts_stopping (s : System) (work : WorkItem)
    (data : list BYTE) :
  sound s ->
  in_flight s = Some (work, data) ->
  joining s = false ->
  stopping s work data (in_flight_steps s) (exec s Act_Shutdown_stop).
Proof.
  intros (Hown & Hmu & _) Hin Hjn.
  unfold thread_owned, mutex_owned, stopping, in_flight_steps in *.
  open_system s. subst jn.
  destruct th as [|[]| |]; run_steps_in Hin; try discriminate Hin;
    cbn in Hmu; subst mu;
    (destruct ini; [|destruct (Hown eq_refl); discriminate]).
  - destruct fcb as [f|]; [|discriminate Hin].
    destruct (f (relativePath work0)) as [d|] eqn:Hret; [|discriminate Hin].
    inversion Hin; subst. run_steps. cbn [stopping_thread Nat.eqb Nat.leb].
    repeat match goal with |- _ /\ _ => split end;
      try reflexivity; try lia.
    + intros _. exists f. auto.
    + exists []. rewrite !app_nil_r. auto.
    + rewrite transfers_say by reflexivity. rewrite app_nil_r. reflexivity.
  - inversion Hin; subst. run_steps. cbn [stopping_thread Nat.eqb Nat.leb].
    repeat match goal with |- _ /\ _ => split end;
      try reflexivity; try lia.
    + exists []. rewrite !app_nil_r. auto.
    + rewrite transfers_say by reflexivity. rewrite app_nil_r. reflexivity.
Qed.

(** With no worker thread and no Initialize, no item is called. *)
Lemma idle_without_Initialize (rest : list Action) :
  forall s : System,
    m_workerThread (provider s) = NotJoinable ->
    forallb (fun a => negb (is_Initialize a)) rest = true ->
    m_workerThread (provider (run rest s)) = NotJoinable /\
    executed (run rest s) = executed s.
Proof.
  induction rest as [|a rest IH]; intros s Hth Hall; [auto|].
  cbn in Hall. apply andb_prop in Hall as [Ha Hrest].
  cbn [run fold_left]. fold (run rest (exec s a)).
  assert (H : m_workerThread (provider (exec s a)) = NotJoinable /\
              executed (exec s a) = executed s).
  { unfold exec. destruct (step s a) as [s'|] eqn:Hstep; [|auto].
    open_system s. subst th. unfold_step Hstep.
    destruct a; try discriminate Ha; cbn in Hstep;
      repeat (split_in Hstep; cbn in Hstep; try discriminate);
      inversion Hstep; subst; cbn; auto. }
  destruct H as [H1 H2]. destruct (IH (exec s a) H1 Hrest) as [H3 H4].
  split; congruence.
Qed.

(** Shutdown's second half, once the lambda has returned. *)
Lemma Shutdown_join_after_return (s : System) :
  joining s = true ->
  m_workerThread (provider s) = Finished ->
  exec s Act_Shutdown_join =
  with_joining
    (say (with_provider s
            (set_initialized
               (fst (disconnect (set_workerThread (provider s) NotJoinable)))
               false))
       (snd (disconnect (set_workerThread (provider s) NotJoinable))
        ++ [Wcout "Cloud Files Provider shut down"]))
    false.
Proof.
  intros Hjn Hth. open_system s. subst.
  unfold exec, step, Shutdown_join, disconnect. cbn.
  destruct (negb (key =? CF_CONNECTION_KEY_INVALID)); reflexivity.
Qed.

Lemma disconnect_keeps_queue (p : CloudFilesProvider) :
  m_workQueue (fst (disconnect p)) = m_workQueue p /\
  m_workerThread (fst (disconnect p)) = m_workerThread p.
Proof.
  unfold disconnect.
  destruct (negb (m_connectionKey p =? CF_CONNECTION_KEY_INVALID)); auto.
Qed.

(** C3, as the code has it.  In any reachable state in which the worker is
    executing an item whose fetch returns, a stop request followed by any
    interleaving of worker steps and fetch requests with at least five
    worker steps leaves the lambda returned; the item in flight has issued
    its transfer; nothing else was called, so the M items queued at the
    request are all still in the queue, in place.  Shutdown then joins.  The
    queue is not emptied: the M items stay queued, and are not called as
    long as Initialize is not called again. *)
Theorem stop_finishes_only_the_item_in_flight
    (before schedule : list Action) (work : WorkItem) (data : list BYTE) :
  let s := run before process_start in
  in_flight s = Some (work, data) ->
  joining s = false ->
  forallb is_worker_or_fetch schedule = true ->
  (5 <= worker_steps schedule)%nat ->
  let s2 := run schedule (exec s Act_Shutdown_stop) in
  let s3 := exec s2 Act_Shutdown_join in
  m_workerThread (provider s2) = Finished /\
  executed s2 = executed s ++ popped s /\
  transfers (output s2) = transfers (output s) ++ [transfer_of s work data] /\
  (exists later,
     m_workQueue (provider s2) = m_workQueue (provider s) ++ later) /\
  m_workerThread (provider s3) = NotJoinable /\
  m_initialized (provider s3) = false /\
  m_workQueue (provider s3) = m_workQueue (provider s2) /\
  (forall rest,
     forallb (fun a => negb (is_Initialize a)) rest = true ->
     executed (run rest s3) = executed s2).
Proof.
  intros s Hin Hjn Hall Hsteps s2 s3.
  pose proof (run_invariant before process_start process_start_invariant)
    as Hsound.
  fold s in Hsound.
  pose proof (stop_request_starts_stopping s work data Hsound Hin Hjn) as H0.
  pose proof (stopping_run s work data schedule _ _ H0 Hall) as H2.
  fold s2 in H2.
  assert (Hk : (in_flight_steps s - worker_steps schedule = 0)%nat).
  { unfold in_flight_steps.
    destruct (m_workerThread (provider s)) as [|[]| |]; lia. }
  rewrite Hk in H2.
  destruct H2 as (_ & Hth & _ & _ & _ & Hjn2 & _ & _ & (later & Hq & _)
                  & Hex & Htr).
  cbn [stopping_thread Nat.leb] in Hth, Htr.
  assert (Hpop : popped s2 = []) by (unfold popped; rewrite Hth; reflexivity).
  rewrite Hpop, app_nil_r in Hex.
  assert (E3 : s3 = _) by (apply (Shutdown_join_after_return s2 Hjn2 Hth)).
  destruct (disconnect_keeps_queue
              (set_workerThread (provider s2) NotJoinable)) as [Dq Dt].
  assert (Hth3 : m_workerThread (provider s3) = NotJoinable)
    by (rewrite E3; cbn; rewrite Dt; reflexivity).
  repeat split; try assumption.
  - exists later. exact Hq.
  - rewrite E3. reflexivity.
  - rewrite E3. cbn. rewrite Dq. reflexivity.
  - intros rest Hrest.
    destruct (idle_without_Initialize rest s3 Hth3 Hrest) as [_ He].
    rewrite He, E3. reflexivity.
Qed.

(** What OnFetchData pushes, and what it does with no fetch source. *)
Lemma OnFetchData_configured (s : System) (f : wstring -> FetchOutcome)
    (CallbackInfo : CF_CALLBACK_INFO)
    (FetchData : CF_CALLBACK_PARAMETERS_FetchData) :
  m_fetchDataCallback (provider s) = Some f ->
  m_queueMutex (provider s) = false ->
  exists s',
    OnFetchData s CallbackInfo FetchData = Some s' /\
    m_workQueue (provider s') =
      m_workQueue (provider s)
      ++ [{| relativePath := NormalizedPath CallbackInfo;
             transferKey := RequiredFileOffset FetchData |}] /\
    submitted s' =
      submitted s
      ++ [{| relativePath := NormalizedPath CallbackInfo;
             transferKey := RequiredFileOffset FetchData |}] /\
    output s' =
      output s
      ++ [WcoutStr "Fetch data requested for: " (NormalizedPath CallbackInfo)].
Proof.
  intros Hf Hmu. open_system s. subst. eexists. split; [reflexivity|].
  cbn. auto.
Qed.

Lemma OnFetchData_unconfigured (s : System)
    (CallbackInfo : CF_CALLBACK_INFO)
    (FetchData : CF_CALLBACK_PARAMETERS_FetchData) :
  m_fetchDataCallback (provider s) = None ->
  OnFetchData s CallbackInfo FetchData =
  Some (say s [WcoutStr "Fetch data requested for: "
                 (NormalizedPath CallbackInfo)]).
Proof.
  intros Hf. open_system s. subst. reflexivity.
Qed.

(** What the closure issues once its fetch has returned [data]. *)
Lemma closure_transfer (s : System) (work : WorkItem) (data : list BYTE)
    (hr : HRESULT) :
  m_workerThread (provider s) = Running (pc_transfer work data) ->
  transfers (output (exec s (Act_Worker hr))) =
  transfers (output s)
  ++ [({| op_Type := CF_OPERATION_TYPE_TRANSFER_DATA;
          op_ConnectionKey := m_connectionKey (provider s);
          op_TransferKey := transferKey work |},
       {| td_CompletionStatus := STATUS_SUCCESS;
          td_Buffer := data;
          td_Length := to_DWORD (Z.of_nat (List.length data));
          td_Offset := 0 |})].
Proof.
  intros Hth. open_system s. subst. run_steps.
  destruct (FAILED hr); rewrite transfers_app; reflexivity.
Qed.

(** C6: the disconnect of Shutdown and of UnregisterSyncRoot does nothing
    when the connection key is the invalid sentinel, never passes the
    sentinel to CfDisconnectSyncRoot, and leaves the sentinel in the key, so
    a second disconnect does nothing.  This holds of the four lines
    themselves, of UnregisterSyncRoot as a whole, and of Shutdown's second
    half. *)
Theorem disconnect_idempotent (p : CloudFilesProvider) :
  (m_connectionKey p = CF_CONNECTION_KEY_INVALID -> disconnect p = (p, [])) /\
  ~ In CF_CONNECTION_KEY_INVALID (disconnected_keys (snd (disconnect p))) /\
  m_connectionKey (fst (disconnect p)) = CF_CONNECTION_KEY_INVALID /\
  disconnect (fst (disconnect p)) = (fst (disconnect p), []) /\
  (forall path hr path' hr',
     let o := UnregisterSyncRoot p path hr in
     ~ In CF_CONNECTION_KEY_INVALID (disconnected_keys (calls o)) /\
     m_connectionKey (after o) = CF_CONNECTION_KEY_INVALID /\
     disconnected_keys (calls (UnregisterSyncRoot (after o) path' hr')) = []) /\
  (forall s : System,
     provider s = p ->
     joining s = true ->
     m_workerThread p = Finished ->
     let s' := exec s Act_Shutdown_join in
     ~ In CF_CONNECTION_KEY_INVALID
         (disconnected_keys (skipn (List.length (output s)) (output s'))) /\
     m_connectionKey (provider s') = CF_CONNECTION_KEY_INVALID /\
     snd (disconnect (provider s')) = []).
Proof.
  assert (Hagain : forall q,
             m_connectionKey q = CF_CONNECTION_KEY_INVALID ->
             snd (disconnect q) = []).
  { intros q Hq. rewrite (disconnect_invalid q Hq). reflexivity. }
  split; [apply disconnect_invalid|].
  split; [apply disconnect_never_invalid|].
  split; [apply disconnect_leaves_invalid|].
  split; [apply disconnect_invalid, disconnect_leaves_invalid|].
  split.
  - intros path hr path' hr'. cbv zeta.
    rewrite !UnregisterSyncRoot_keys.
    rewrite UnregisterSyncRoot_unfold. cbn [after].
    split; [apply disconnect_never_invalid|].
    split; [apply disconnect_leaves_invalid|].
    rewrite Hagain by apply disconnect_leaves_invalid. reflexivity.
  - intros s Hp Hjn Hth. subst p. cbv zeta.
    rewrite (Shutdown_join_after_return s Hjn Hth).
    cbn [output say with_joining with_provider provider].
    rewrite skipn_app, skipn_all, Nat.sub_diag. cbn [skipn app].
    rewrite disconnected_keys_app. cbn. rewrite app_nil_r.
    split; [apply disconnect_never_invalid|].
    assert (Hk : m_connectionKey
                   (set_initialized
                      (fst (disconnect
                              (set_workerThread (provider s) NotJoinable)))
                      false) = CF_CONNECTION_KEY_INVALID)
      by apply disconnect_leaves_invalid.
    split; [exact Hk|]. apply Hagain. exact Hk.
Qed.

End WorkerProperties.

(** * The model on concrete inputs *)

(** ** The worker loop *)

Example two_items_run_in_order :
  let s := run (platform := build_x64) (worker_runs 11)
             (first_item_popped good_source) in
  executed s = [report_item; notes_item] /\
  fetched_paths (output s) = [report_pdf; notes_txt] /\
  m_workQueue (provider s) = [].
Proof. vm_compute. auto. Qed.

Lemma worker_executes_in_submission_order_witness :
  NoDup (executed (run (platform := build_x64) (worker_runs 11)
                     (first_item_popped good_source))) /\
  (let s := run (platform := build_x64)
              (started good_source ++ two_requests ++ worker_runs 2)
              (process_start (platform := build_x64)) in
   executed (run (platform := build_x64)
               (flat_map worker_round [S_OK; E_FAIL]) s)
   = executed s ++ m_workQueue (provider s)).
Proof.
  split.
  - destruct (proj1 (@worker_executes_in_submission_order build_x64)
                (started good_source ++ two_requests ++ worker_runs 4
                 ++ worker_runs 11)) as [_ H].
    unfold first_item_popped. rewrite <- !run_app, <- !app_assoc.
    apply H. vm_compute.
    repeat constructor; simpl; intuition discriminate.
  - cbv zeta.
    apply (proj2 (@worker_executes_in_submission_order build_x64)
             (run (platform := build_x64)
                (started good_source ++ two_requests ++ worker_runs 2)
                (process_start (platform := build_x64)))
             good_source [S_OK; E_FAIL]).
    + reflexivity.
    + reflexivity.
    + reflexivity.
    + vm_compute. repeat constructor; exists some_bytes; reflexivity.
    + reflexivity.
Defined.

(** C2, as the claim states it, fails: the fetch source raises for the
    first of two queued items; the worker's step into work() ends the
    process, the second item stays queued and no schedule ever calls it. *)
Lemma raising_item_ends_the_worker :
  let s := run (platform := build_x64) (worker_runs 1)
             (first_item_popped flaky_source) in
  fetch_raises (first_item_popped flaky_source) report_item /\
  m_workQueue (provider (first_item_popped flaky_source)) = [notes_item] /\
  m_workerThread (provider s) = Terminated /\
  m_workQueue (provider s) = [notes_item] /\
  forall schedule,
    executed (run (platform := build_x64) schedule s) = [report_item].
Proof.
  cbv zeta. repeat split; try reflexivity.
  intros schedule. rewrite terminated_is_final; reflexivity.
Qed.

Lemma worker_survives_failed_transfer_not_exception_witness :
  (let s := first_item_popped flaky_source in
   m_workerThread (provider (exec (platform := build_x64) s (Act_Worker S_OK)))
   = Terminated) /\
  (let s := run (platform := build_x64) (worker_runs 1)
              (first_item_popped good_source) in
   executed (run (platform := build_x64)
               (Act_Worker E_FAIL :: flat_map worker_round [S_OK])
               (exec (platform := build_x64) s (Act_Worker E_FAIL)))
   = executed s ++ m_workQueue (provider s)).
Proof.
  split; cbv zeta.
  - apply (proj1 (@worker_survives_failed_transfer_not_exception build_x64)
             (first_item_popped flaky_source) report_item S_OK).
    + reflexivity.
    + reflexivity.
  - apply (proj2 (@worker_survives_failed_transfer_not_exception build_x64)
             (run (platform := build_x64) (worker_runs 1)
                (first_item_popped good_source))
             report_item some_bytes E_FAIL good_source [S_OK]).
    + reflexivity.
    + reflexivity.
    + reflexivity.
    + reflexivity.
    + reflexivity.
    + vm_compute. repeat constructor; exists some_bytes; reflexivity.
    + reflexivity.
Defined.

(** C3, as the claim states it, fails on "ever": Shutdown leaves the queue
    as it is.  A stop is requested while docs/report.pdf is in flight and
    docs/notes.txt is queued; the worker finishes the first and returns;
    Shutdown joins; the application calls Initialize again, and the new
    worker calls the item that was queued at the stop. *)
Lemma queued_item_runs_after_next_Initialize :
  let s := first_item_popped good_source in
  let s2 := run (platform := build_x64) (Act_Shutdown_stop :: worker_runs 5) s in
  let s4 := run (platform := build_x64)
              ([Act_Shutdown_join; Act_Initialize] ++ worker_runs 5) s2 in
  in_flight s = Some (report_item, some_bytes) /\
  m_workQueue (provider s) = [notes_item] /\
  m_workerThread (provider s2) = Finished /\
  executed s2 = [report_item] /\
  executed s4 = [report_item; notes_item].
Proof. vm_compute. repeat split; reflexivity. Qed.

Lemma stop_finishes_only_the_item_in_flight_witness :
  let s := first_item_popped good_source in
  let s2 := run (platform := build_x64)
              ([Act_Worker S_OK; Act_fetch report_pdf 9 0] ++ worker_runs 4)
              (exec (platform := build_x64) s Act_Shutdown_stop) in
  m_workerThread (provider s2) = Finished /\
  executed s2 = executed s ++ popped s.
Proof.
  cbv zeta.
  destruct (@stop_finishes_only_the_item_in_flight build_x64
              (started good_source ++ two_requests ++ worker_runs 4)
              ([Act_Worker S_OK; Act_fetch report_pdf 9 0] ++ worker_runs 4)
              report_item some_bytes)
    as (H1 & H2 & _).
  - reflexivity.
  - reflexivity.
  - reflexivity.
  - vm_compute. lia.
  - split; [exact H1 | exact H2].
Defined.

(** ** OnFetchData *)

(** C4 on a fetch request with transfer key 7 for the bytes from offset
    4096 of docs/report.pdf: one item is pushed, the fetch source is called
    once with the path, and the transfer goes out with the returned bytes
    and status success, but the key it carries is 4096, the requested file
    offset, not 7. *)
Theorem OnFetchData_transfer_carries_offset_as_key :
  let request := fetch_event report_pdf 7 4096 in
  let s := run (platform := build_x64)
             (started good_source
              ++ [Act_OnFetchData (fst request) (snd request)]
              ++ worker_runs 6)
             (process_start (platform := build_x64)) in
  submitted s = [{| relativePath := report_pdf; transferKey := 4096 |}] /\
  fetched_paths (output s) = [report_pdf] /\
  transfers (output s) =
    [({| op_Type := CF_OPERATION_TYPE_TRANSFER_DATA;
         op_ConnectionKey := 41;
         op_TransferKey := 4096 |},
      {| td_CompletionStatus := STATUS_SUCCESS;
         td_Buffer := some_bytes;
         td_Length := 4;
         td_Offset := 0 |})] /\
  map (fun x => op_TransferKey (fst x)) (transfers (output s))
  <> [TransferKey (fst request)].
Proof. vm_compute. repeat split; try reflexivity. discriminate. Qed.

Example fetch_request_without_source :
  let s0 := run (platform := build_x64)
              [Act_Initialize;
               Act_RegisterSyncRoot drive_root "Main Booth Drive" friendly_host]
              (process_start (platform := build_x64)) in
  let s := run (platform := build_x64)
             (Act_fetch report_pdf 7 0 :: worker_runs 6) s0 in
  m_workQueue (provider s) = [] /\ submitted s = [] /\
  fetched_paths (output s) = [] /\ transfers (output s) = [].
Proof. vm_compute. auto. Qed.

(** ** HydrateFile *)

Example HydrateFile_report :
  let o := HydrateFile (platform := build_x64) connected_provider report_pdf
             some_bytes (Some 1%nat) (file_opens S_OK) in
  returned o = S_OK /\
  calls o =
    [WcoutStr "Hydrating file: " report_pdf;
     Call_CreateFileW "C:\Users\me\Main Booth Drive\docs/report.pdf";
     Call_CfExecute
       {| op_Type := CF_OPERATION_TYPE_TRANSFER_DATA;
          op_ConnectionKey := 41; op_TransferKey := 0 |}
       {| td_CompletionStatus := 0; td_Buffer := some_bytes;
          td_Length := 4; td_Offset := 0 |};
     Call_CloseHandle 100;
     Call_progressCallback 1 double_1_0].
Proof. vm_compute. auto. Qed.

Lemma length_four_GiB : Z.of_nat (List.length four_GiB) = 4294967296.
Proof.
  unfold four_GiB. rewrite repeat_length. apply Z2Nat.id. discriminate.
Qed.

(** C5, as the claim states it, fails on the length: for a buffer of 2^32
    bytes, which a 64-bit build can hold, with the file open and the host
    transfer succeeding, the transfer goes out with length 0. *)
Lemma HydrateFile_length_wraps :
  let o := HydrateFile (platform := build_x64) connected_provider report_pdf
             four_GiB (Some 1%nat) (file_opens S_OK) in
  vector_fits (platform := build_x64) four_GiB /\
  Z.of_nat (List.length four_GiB) = 4294967296 /\
  returned o = S_OK /\
  map (fun x => td_Length (snd x)) (transfers (calls o)) = [0].
Proof.
  cbv zeta.
  rewrite (@HydrateFile_opened build_x64) by discriminate.
  change (FAILED (cfapi_hr (file_opens S_OK))) with false.
  cbn [calls returned app transfers flat_map map snd fst td_Length
       transfer_opParams].
  unfold vector_fits, to_DWORD. rewrite length_four_GiB.
  repeat split; reflexivity.
Qed.

Lemma HydrateFile_outcome_witness :
  (let o := HydrateFile (platform := build_x64) connected_provider report_pdf
              some_bytes (Some 1%nat) (file_opens S_OK) in
   map (fun x => td_Length (snd x)) (transfers (calls o)) = [4] /\
   progress_values (calls o) = [double_1_0] /\
   closed_handles (calls o) = [100] /\
   returned o = S_OK) /\
  (let o := HydrateFile (platform := build_x64) connected_provider report_pdf
              some_bytes (Some 1%nat) file_missing in
   FAILED (returned o) = true /\ closed_handles (calls o) = []).
Proof.
  split; cbv zeta.
  - destruct (proj1 (@HydrateFile_outcome build_x64 connected_provider
                       report_pdf some_bytes 1%nat (file_opens S_OK)))
      as (_ & Hl & Hp & Hc & Hr).
    + discriminate.
    + split; [apply Hl; reflexivity|]. split; [exact Hp|].
      split; [exact Hc | exact Hr].
  - destruct (proj2 (@HydrateFile_outcome build_x64 connected_provider
                       report_pdf some_bytes 1%nat file_missing))
      as (Hf & _ & _ & Hc).
    + reflexivity.
    + split; reflexivity.
    + split; [exact Hf | exact Hc].
Defined.

Lemma HydrateFile_progress_despite_failed_transfer_witness :
  let o := HydrateFile (platform := build_x64) connected_provider report_pdf
             some_bytes (Some 1%nat) (file_opens E_FAIL) in
  progress_values (calls o) = [double_1_0] /\
  returned o = E_FAIL /\
  FAILED (returned o) = true /\
  progress_values
    (calls (HydrateFile (platform := build_x64) connected_provider report_pdf
              some_bytes None (file_opens E_FAIL))) = [].
Proof.
  apply (@HydrateFile_progress_despite_failed_transfer build_x64
           connected_provider report_pdf some_bytes 1%nat (file_opens E_FAIL)).
  - discriminate.
  - reflexivity.
Defined.

(** ** The connection *)

Lemma disconnect_idempotent_witness :
  disconnect (platform := build_x64) (new_CloudFilesProvider (platform := build_x64))
  = (new_CloudFilesProvider (platform := build_x64), []) /\
  m_connectionKey
    (provider (exec (platform := build_x64)
                 (run (platform := build_x64) (Act_Shutdown_stop :: worker_runs 5)
                    (first_item_popped good_source))
                 Act_Shutdown_join))
  = 0.
Proof.
  split.
  - apply (proj1 (@disconnect_idempotent build_x64
                    (new_CloudFilesProvider (platform := build_x64)))).
    reflexivity.
  - destruct (@disconnect_idempotent build_x64
                (provider (run (platform := build_x64)
                             (Act_Shutdown_stop :: worker_runs 5)
                             (first_item_popped good_source))))
      as (_ & _ & _ & _ & _ & H).
    destruct (H (run (platform := build_x64)
                   (Act_Shutdown_stop :: worker_runs 5)
                   (first_item_popped good_source)))
      as (_ & Hk & _).
    + reflexivity.
    + reflexivity.
    + reflexivity.
    + exact Hk.
Defined.

Example Shutdown_disconnects_once :
  let s := run (platform := build_x64)
             (Act_Shutdown_stop :: worker_runs 5
              ++ [Act_Shutdown_join; Act_UnregisterSyncRoot drive_root S_OK])
             (first_item_popped good_source) in
  disconnected_keys (output s) = [41] /\
  m_connectionKey (provider s) = 0.
Proof. vm_compute. auto. Qed.

(** C7, as the claim states it, fails: the host refuses to drop the
    registration with E_FAIL, and UnregisterSyncRoot returns E_FAIL, a
    failure, to its caller. *)
Lemma UnregisterSyncRoot_passes_failure_on :
  let o := UnregisterSyncRoot (platform := build_x64) connected_provider
             drive_root E_FAIL in
  returned o = E_FAIL /\
  FAILED (returned o) = true /\
  calls o =
    [WcoutStr "Unregistering sync root: " drive_root;
     Call_CfDisconnectSyncRoot 41;
     Call_CfUnregisterSyncRoot drive_root;
     WcoutNum "Failed to unregister sync root: 0x" E_FAIL].
Proof. vm_compute. auto. Qed.

(** ** Placeholders and the sync root *)

Lemma CreatePlaceholderInfo_identity_deterministic_witness :
  let info (size : Z) (heap : HeapHost) :=
    snd (fst (CreatePlaceholderInfo (platform := build_x64) report_pdf
                a_FILE_BASIC_INFO size heap)) in
  option_map snd (FileIdentity (info 1234 (heap_gives 4096 8192)))
  = option_map snd (FileIdentity (info 99 (heap_gives 16 32))) /\
  FileIdentityLength (info 1234 (heap_gives 4096 8192))
  = FileIdentityLength (info 99 (heap_gives 16 32)).
Proof.
  cbv zeta.
  apply (@CreatePlaceholderInfo_identity_deterministic build_x64
           report_pdf report_pdf a_FILE_BASIC_INFO a_FILE_BASIC_INFO 1234 99
           (heap_gives 4096 8192) (heap_gives 16 32) _ _
           [Call_HeapAlloc 32; Call_HeapAlloc 8]
           [Call_HeapAlloc 32; Call_HeapAlloc 8]).
  - reflexivity.
  - reflexivity.
  - reflexivity.
Defined.

Lemma RegisterSyncRoot_stores_path_first_witness :
  let o := RegisterSyncRoot connected_provider
             "Z:\nowhere" "Main Booth Drive" no_directory in
  FAILED (returned o) = true /\
  after o = set_syncRootPath connected_provider "Z:\nowhere" /\
  placeholder_roots
    (calls (CreatePlaceholder (platform := build_x64) (after o) report_pdf
              a_FILE_BASIC_INFO 1234 (heap_gives 4096 8192) S_OK))
  = ["Z:\nowhere"].
Proof.
  cbv zeta.
  destruct (@RegisterSyncRoot_stores_path_first build_x64 connected_provider
              "Z:\nowhere" "Main Booth Drive" no_directory)
    as (_ & H & _ & _ & _ & _ & Hc).
  destruct H as [Hr Ha]; [reflexivity | discriminate |].
  split; [rewrite Hr; reflexivity|]. split; [exact Ha|].
  apply (Hc report_pdf a_FILE_BASIC_INFO 1234 (heap_gives 4096 8192) S_OK
           4096 8192); reflexivity.
Defined.

(** * The rest of the code *)

(** ** Time conversion *)

Lemma to_int64_small (x : Z) :
  - 2 ^ 63 <= x < 2 ^ 63 -> to_int64 x = x.
Proof.
  intros H. unfold to_int64.
  destruct (Z_lt_le_dec x 0) as [Hneg|Hpos].
  - replace (x mod 2 ^ 64) with (x + 2 ^ 64).
    + destruct (Z.ltb_spec (x + 2 ^ 64) (2 ^ 63)); lia.
    + apply Z.mod_unique with (q := -1); lia.
  - rewrite Z.mod_small by lia.
    destruct (Z.ltb_spec x (2 ^ 63)); lia.
Qed.

Lemma EPOCH_DIFFERENCE_value : EPOCH_DIFFERENCE = -6802270473709551616.
Proof. reflexivity. Qed.

Lemma lor_high_low (a b : Z) :
  0 <= b < 2 ^ 32 -> Z.lor (a * 2 ^ 32) b = a * 2 ^ 32 + b.
Proof.
  intros Hb.
  assert (Hland : Z.land (a * 2 ^ 32) b = 0).
  { apply Z.bits_inj'. intros n Hn. rewrite Z.land_spec, Z.bits_0.
    destruct (Z_lt_le_dec n 32) as [Hlo|Hhi].
    - rewrite Z.mul_pow2_bits_low by lia. reflexivity.
    - replace b with (b mod 2 ^ 32) by (apply Z.mod_small; lia).
      rewrite Z.mod_pow2_bits_high by lia. apply andb_false_r. }
  rewrite <- Z.lxor_lor by exact Hland.
  symmetry. apply Z.add_nocarry_lxor. exact Hland.
Qed.

(** The 64 bits DateTimeToFileTime splits into the two halves. *)
Lemma DateTimeToFileTime_halves (nanoseconds : Z) :
  - 2 ^ 63 <= nanoseconds < 2 ^ 63 ->
  let fileTime := Z.quot nanoseconds 100 + EPOCH_DIFFERENCE in
  - 2 ^ 63 <= fileTime < 0 /\
  dwLowDateTime (DateTimeToFileTime nanoseconds) = fileTime mod 2 ^ 32 /\
  dwHighDateTime (DateTimeToFileTime nanoseconds)
  = fileTime / 2 ^ 32 + 2 ^ 32 /\
  - 2 ^ 31 <= fileTime / 2 ^ 32 < 0.
Proof.
  intros Hns fileTime.
  assert (Hf : - 2 ^ 63 <= fileTime < 0).
  { unfold fileTime. rewrite EPOCH_DIFFERENCE_value.
    Z.to_euclidean_division_equations. lia. }
  assert (Hd : - 2 ^ 31 <= fileTime / 2 ^ 32 < 0).
  { Z.to_euclidean_division_equations. lia. }
  split; [exact Hf|]. unfold DateTimeToFileTime. fold fileTime.
  rewrite (to_int64_small fileTime) by lia. cbn [dwLowDateTime dwHighDateTime].
  unfold to_DWORD. split; [|split; [|exact Hd]].
  - change 0xFFFFFFFF with (Z.ones 32). rewrite Z.land_ones by lia.
    apply Z.mod_mod. lia.
  - rewrite Z.shiftr_div_pow2 by lia.
    symmetry. apply Z.mod_unique with (q := -1); lia.
Qed.

(** X1: a time point taken to a FILETIME and back comes back cut to 100
    nanoseconds, toward the epoch; a time point on the 100 ns grid comes
    back as it was.  One step on the way leaves the int64_t range: the high
    word DateTimeToFileTime produces has its top bit set, so the shift
    [high << 32] of line 474 has a mathematical value of 2^63 or more, and
    the round trip holds with that shift kept to 64 bits, two's
    complement. *)
Theorem FileTime_round_trip (nanoseconds : Z) :
  - 2 ^ 63 <= nanoseconds < 2 ^ 63 ->
  FileTimeToDateTime (DateTimeToFileTime nanoseconds)
  = nanoseconds - Z.rem nanoseconds 100 /\
  (Z.rem nanoseconds 100 = 0 ->
   FileTimeToDateTime (DateTimeToFileTime nanoseconds) = nanoseconds) /\
  2 ^ 63 <= Z.shiftl (dwHighDateTime (DateTimeToFileTime nanoseconds)) 32
         < 2 ^ 64.
Proof.
  intros Hns.
  destruct (DateTimeToFileTime_halves nanoseconds Hns) as (Hf & Hl & Hh & Hd).
  set (fileTime := Z.quot nanoseconds 100 + EPOCH_DIFFERENCE) in *.
  assert (Hback : FileTimeToDateTime (DateTimeToFileTime nanoseconds)
                  = nanoseconds - Z.rem nanoseconds 100).
  { unfold FileTimeToDateTime. rewrite Hl, Hh.
    rewrite Z.shiftl_mul_pow2 by lia.
    assert (Hw : to_int64 ((fileTime / 2 ^ 32 + 2 ^ 32) * 2 ^ 32)
                 = fileTime / 2 ^ 32 * 2 ^ 32).
    { unfold to_int64.
      rewrite Z.mod_small by lia.
      destruct (Z.ltb_spec ((fileTime / 2 ^ 32 + 2 ^ 32) * 2 ^ 32) (2 ^ 63));
        lia. }
    rewrite Hw.
    rewrite lor_high_low by (apply Z.mod_pos_bound; lia).
    replace (fileTime / 2 ^ 32 * 2 ^ 32 + fileTime mod 2 ^ 32) with fileTime
      by (rewrite (Z.div_mod fileTime (2 ^ 32)) at 1; lia).
    unfold fileTime.
    replace (Z.quot nanoseconds 100 + EPOCH_DIFFERENCE - EPOCH_DIFFERENCE)
      with (Z.quot nanoseconds 100) by lia.
    assert (Hq : - 2 ^ 63 <= Z.quot nanoseconds 100 * 100 < 2 ^ 63
                 /\ - 2 ^ 63 <= Z.quot nanoseconds 100 < 2 ^ 63)
      by (Z.to_euclidean_division_equations; lia).
    rewrite (to_int64_small (Z.quot nanoseconds 100)) by lia.
    rewrite to_int64_small by lia.
    pose proof (Z.quot_rem' nanoseconds 100). lia. }
  split; [exact Hback|]. split.
  - intros Hgrid. rewrite Hback, Hgrid. lia.
  - rewrite Hh, Z.shiftl_mul_pow2 by lia. lia.
Qed.

(** X2: EPOCH_DIFFERENCE is the distance of the two epochs in nanoseconds,
    added to a count of 100 ns units; as an int64_t it is negative.  So for
    every time point the FILETIME produced has the top bit of
    dwHighDateTime set: read by Windows as an unsigned 64-bit count it is
    the count of 100 ns units plus 11644473600000000000, at least 2^63. *)
Theorem DateTimeToFileTime_top_bit_set (nanoseconds : Z) :
  - 2 ^ 63 <= nanoseconds < 2 ^ 63 ->
  let ft := DateTimeToFileTime nanoseconds in
  2 ^ 31 <= dwHighDateTime ft < 2 ^ 32 /\
  0 <= dwLowDateTime ft < 2 ^ 32 /\
  FILETIME_value ft
  = Z.quot nanoseconds 100 + 11644473600000000000 /\
  2 ^ 63 <= FILETIME_value ft < 2 ^ 64.
Proof.
  intros Hns ft.
  destruct (DateTimeToFileTime_halves nanoseconds Hns) as (Hf & Hl & Hh & Hd).
  set (fileTime := Z.quot nanoseconds 100 + EPOCH_DIFFERENCE) in *.
  fold ft in Hl, Hh.
  pose proof (Z.mod_pos_bound fileTime (2 ^ 32) ltac:(lia)) as Hm.
  pose proof (Z.div_mod fileTime (2 ^ 32) ltac:(lia)) as Hdm.
  assert (Hv : FILETIME_value ft = fileTime + 2 ^ 64).
  { unfold FILETIME_value. rewrite Hl, Hh. lia. }
  split; [lia|]. split; [lia|]. split.
  - rewrite Hv. unfold fileTime. rewrite EPOCH_DIFFERENCE_value. lia.
  - rewrite Hv. lia.
Qed.

(** ** More about the member functions *)

Section MoreMemberProperties.
Context {platform : Platform}.

Lemma FAILED_E_OUTOFMEMORY : FAILED E_OUTOFMEMORY = true.
Proof. reflexivity. Qed.

(** The three ways through CreatePlaceholder. *)
Lemma CreatePlaceholder_no_fileName (p : CloudFilesProvider) (rel : wstring)
    (basicInfo : FILE_BASIC_INFO) (fileSize : LARGE_INTEGER) (heap : HeapHost)
    (hr : HRESULT) :
  HeapAlloc_fileName heap = None ->
  CreatePlaceholder p rel basicInfo fileSize heap hr =
  mkOutcome E_OUTOFMEMORY p
    [WcoutStr "Creating placeholder: " rel;
     Call_HeapAlloc ((Z.of_nat (String.length rel) + 1) * sizeof_WCHAR)].
Proof.
  intros H. unfold CreatePlaceholder, CreatePlaceholderInfo. rewrite H.
  reflexivity.
Qed.

Lemma CreatePlaceholder_no_fileIdentity (p : CloudFilesProvider)
    (rel : wstring) (basicInfo : FILE_BASIC_INFO) (fileSize : LARGE_INTEGER)
    (heap : HeapHost) (hr : HRESULT) (a : Z) :
  HeapAlloc_fileName heap = Some a ->
  HeapAlloc_fileIdentity heap = None ->
  CreatePlaceholder p rel basicInfo fileSize heap hr =
  mkOutcome E_OUTOFMEMORY p
    [WcoutStr "Creating placeholder: " rel;
     Call_HeapAlloc ((Z.of_nat (String.length rel) + 1) * sizeof_WCHAR);
     Call_HeapAlloc (Z.of_nat sizeof_size_t);
     Call_HeapFree a].
Proof.
  intros Ha Hb. unfold CreatePlaceholder, CreatePlaceholderInfo.
  rewrite Ha, Hb. reflexivity.
Qed.

Lemma CreatePlaceholder_allocated (p : CloudFilesProvider)
    (rel : wstring) (basicInfo : FILE_BASIC_INFO) (fileSize : LARGE_INTEGER)
    (heap : HeapHost) (hr : HRESULT) (a b : Z) :
  HeapAlloc_fileName heap = Some a ->
  HeapAlloc_fileIdentity heap = Some b ->
  CreatePlaceholder p rel basicInfo fileSize heap hr =
  mkOutcome hr p
    ([WcoutStr "Creating placeholder: " rel;
      Call_HeapAlloc ((Z.of_nat (String.length rel) + 1) * sizeof_WCHAR);
      Call_HeapAlloc (Z.of_nat sizeof_size_t);
      Call_CfCreatePlaceholders (m_syncRootPath p)
        {| RelativeFileName := Some (a, rel);
           FileIdentity :=
             Some (b, object_bytes sizeof_size_t (hasher rel));
           FileIdentityLength := Z.of_nat sizeof_size_t;
           FsMetadata := dangling |}]
     ++ (if FAILED hr
         then [WcoutNum "Failed to create placeholder: 0x" hr] else [])
     ++ [Call_HeapFree a; Call_HeapFree b]).
Proof.
  intros Ha Hb. unfold CreatePlaceholder, CreatePlaceholderInfo.
  rewrite Ha, Hb. change (FAILED S_OK) with false. cbv iota.
  destruct (FAILED hr); reflexivity.
Qed.

(** X3: CreatePlaceholder gives back to the heap every block the heap
    handed out, once each and in the order handed out, on every way out:
    when the first allocation fails, when the second fails, when the host
    refuses the placeholder, and on success. *)
Theorem CreatePlaceholder_frees_what_it_allocates (p : CloudFilesProvider)
    (relativePath : wstring) (basicInfo : FILE_BASIC_INFO)
    (fileSize : LARGE_INTEGER) (heap : HeapHost)
    (CfCreatePlaceholders_hr : HRESULT) :
  let o := CreatePlaceholder p relativePath basicInfo fileSize heap
             CfCreatePlaceholders_hr in
  heap_freed (calls o) = heap_given heap /\
  List.length (heap_requests (calls o))
  = match HeapAlloc_fileName heap with
    | None => 1%nat
    | Some _ => 2%nat
    end.
Proof.
  cbv zeta. unfold heap_given.
  destruct (HeapAlloc_fileName heap) as [a|] eqn:Ha;
    [destruct (HeapAlloc_fileIdentity heap) as [b|] eqn:Hb|].
  - rewrite (CreatePlaceholder_allocated _ _ _ _ _ _ a b Ha Hb).
    cbn [calls]. destruct (FAILED CfCreatePlaceholders_hr); split; reflexivity.
  - rewrite (CreatePlaceholder_no_fileIdentity _ _ _ _ _ _ a Ha Hb).
    split; reflexivity.
  - rewrite (CreatePlaceholder_no_fileName _ _ _ _ _ _ Ha). split; reflexivity.
Qed.


Lemma byte_of_Z_value (z : Z) : Z.of_N (Byte.to_N (byte_of_Z z)) = z mod 256.
Proof.
  unfold byte_of_Z.
  pose proof (Z.mod_pos_bound z 256 ltac:(lia)) as Hm.
  destruct (Byte.of_N (Z.to_N (z mod 256))) as [b|] eqn:E.
  - apply Byte.to_of_N in E. rewrite E. apply Z2N.id. lia.
  - exfalso.
    pose proof (Byte.to_of_N_option_map (Z.to_N (z mod 256))) as H.
    rewrite E in H. cbn in H.
    destruct (N.leb_spec (Z.to_N (z mod 256)) 255) as [|Hgt];
      [discriminate|]. lia.
Qed.

Lemma length_object_bytes (n : nat) (v : Z) :
  List.length (object_bytes n v) = n.
Proof.
  revert v. induction n as [|n IH]; intros v; [reflexivity|].
  cbn. rewrite IH. reflexivity.
Qed.

Lemma bytes_value_object_bytes (n : nat) (v : Z) :
  bytes_value (object_bytes n v) = v mod 2 ^ (8 * Z.of_nat n).
Proof.
  revert v. induction n as [|n IH]; intros v.
  - cbn. symmetry. apply Z.mod_1_r.
  - cbn [object_bytes bytes_value]. rewrite byte_of_Z_value, IH.
    replace (8 * Z.of_nat (S n)) with (8 + 8 * Z.of_nat n) by lia.
    rewrite Z.pow_add_r by lia. change (2 ^ 8) with 256.
    rewrite Z.rem_mul_r by lia. reflexivity.
Qed.

(** X5: the identity of a placeholder is the value of std::hash on the
    relative path, written out in sizeof(size_t) bytes: the length the host
    is told is the number of identity bytes, the bytes read back as a
    number give the hash, and two placeholders carry the same identity
    exactly when the hashes of their paths agree on those bytes.  So two
    paths share an identity exactly when std::hash collides on them. *)
Theorem placeholder_identity_is_the_hash
    (path1 path2 : wstring) (basicInfo1 basicInfo2 : FILE_BASIC_INFO)
    (fileSize1 fileSize2 : LARGE_INTEGER) (heap1 heap2 : HeapHost)
    (info1 info2 : CF_PLACEHOLDER_CREATE_INFO) (t1 t2 : list Event) :
  CreatePlaceholderInfo path1 basicInfo1 fileSize1 heap1 = (S_OK, info1, t1) ->
  CreatePlaceholderInfo path2 basicInfo2 fileSize2 heap2 = (S_OK, info2, t2) ->
  (exists bytes1,
     option_map snd (FileIdentity info1) = Some bytes1 /\
     FileIdentityLength info1 = Z.of_nat (List.length bytes1) /\
     bytes_value bytes1 = hasher path1 mod 2 ^ (8 * Z.of_nat sizeof_size_t)) /\
  (option_map snd (FileIdentity info1) = option_map snd (FileIdentity info2)
   <-> hasher path1 mod 2 ^ (8 * Z.of_nat sizeof_size_t)
       = hasher path2 mod 2 ^ (8 * Z.of_nat sizeof_size_t)).
Proof.
  intros H1 H2.
  apply CreatePlaceholderInfo_S_OK in H1.
  apply CreatePlaceholderInfo_S_OK in H2.
  unfold identity_of in *. inversion H1 as [[E1 L1]]. inversion H2 as [[E2 L2]].
  rewrite E1, E2, L1. split.
  - eexists. split; [reflexivity|].
    rewrite length_object_bytes, bytes_value_object_bytes. auto.
  - split; intros H.
    + inversion H as [Hb]. apply (f_equal bytes_value) in Hb.
      rewrite !bytes_value_object_bytes in Hb. exact Hb.
    + f_equal. clear -H. revert H.
      generalize (hasher path1), (hasher path2).
      induction sizeof_size_t as [|n IH]; intros v w H; [reflexivity|].
      cbn [object_bytes].
      replace (8 * Z.of_nat (S n)) with (8 + 8 * Z.of_nat n) in H by lia.
      rewrite Z.pow_add_r in H by lia. change (2 ^ 8) with 256 in H.
      rewrite !Z.rem_mul_r in H by lia.
      pose proof (Z.mod_pos_bound v 256 ltac:(lia)) as Hv.
      pose proof (Z.mod_pos_bound w 256 ltac:(lia)) as Hw.
      set (x := (v / 256) mod 2 ^ (8 * Z.of_nat n)) in *.
      set (y := (w / 256) mod 2 ^ (8 * Z.of_nat n)) in *.
      set (a := v mod 256) in *. set (b := w mod 256) in *.
      assert (Hlow : a = b) by lia.
      assert (Hhigh : x = y) by lia.
      f_equal.
      * unfold byte_of_Z. fold a b. rewrite Hlow. reflexivity.
      * apply IH. exact Hhigh.
Qed.

End MoreMemberProperties.

Section MoreMemberProperties2.
Context {platform : Platform}.

Lemma RegisterSyncRoot_unfold (p : CloudFilesProvider)
    (path name : wstring) (host : RegisterHost) :
  RegisterSyncRoot p path name host =
  let p1 := set_syncRootPath p path in
  let t := [WcoutStr "Registering sync root: " path;
            Call_CreateDirectoryW path] in
  if negb (directory_ready host) then
    mkOutcome (HRESULT_FROM_WIN32 (CreateDirectoryW_LastError host)) p1
      (t ++ [WcoutNum "Failed to create sync root directory: "
               (CreateDirectoryW_LastError host)])
  else
    let t := t ++ [Call_CfRegisterSyncRoot path
                     (snd (CreateSyncRegistration name)) nullptr] in
    if FAILED (CfRegisterSyncRoot_hr host) then
      mkOutcome (CfRegisterSyncRoot_hr host) p1
        (t ++ [WcoutNum "Failed to register sync root: 0x"
                 (CfRegisterSyncRoot_hr host)])
    else
      let p2 := set_connectionKey p1 (CfConnectSyncRoot_key host) in
      let t := t ++ [Call_CfConnectSyncRoot path] in
      if FAILED (CfConnectSyncRoot_hr host) then
        mkOutcome (CfConnectSyncRoot_hr host) p2
          (t ++ [WcoutNum "Failed to connect sync root: 0x"
                   (CfConnectSyncRoot_hr host);
                 Call_CfUnregisterSyncRoot path])
      else
        mkOutcome S_OK p2 (t ++ [Wcout "Sync root registered successfully"]).
Proof.
  unfold RegisterSyncRoot, directory_ready, CreateSyncRegistration.
  change (FAILED S_OK) with false. cbv iota zeta.
  rewrite negb_orb.
  destruct (negb (CreateDirectoryW_ok host)
            && negb (CreateDirectoryW_LastError host =? ERROR_ALREADY_EXISTS));
    [reflexivity|].
  destruct (FAILED (CfRegisterSyncRoot_hr host)); [reflexivity|].
  destruct (FAILED (CfConnectSyncRoot_hr host)); reflexivity.
Qed.

(** X6: the host calls of RegisterSyncRoot.  The directory is always asked
    for; the sync root is registered only when the directory is there
    (created now, or ERROR_ALREADY_EXISTS), with the display name and
    version 1.0.0; the connection is asked for only after a registration
    that succeeded; and the registration is taken back, by
    CfUnregisterSyncRoot, exactly when the connection fails.  The policies
    CreateSyncRegistration fills in reach the host through no object that
    is alive: the SyncPolicies member holds the address of a local variable
    of CreateSyncRegistration, which has returned, and the Policies
    argument is null.  RegisterSyncRoot never disconnects a connection the
    provider already holds. *)
Theorem RegisterSyncRoot_host_protocol (p : CloudFilesProvider)
    (syncRootPath displayName : wstring) (host : RegisterHost) :
  let o := RegisterSyncRoot p syncRootPath displayName host in
  let registered := directory_ready host in
  let connected := registered && negb (FAILED (CfRegisterSyncRoot_hr host)) in
  let undone := connected && FAILED (CfConnectSyncRoot_hr host) in
  created_directories (calls o) = [syncRootPath] /\
  registered_roots (calls o) = (if registered then [syncRootPath] else []) /\
  registrations (calls o)
  = (if registered
     then [({| reg_ProviderName := displayName;
               reg_ProviderVersion := "1.0.0";
               reg_SyncPolicies := dangling |},
            nullptr)]
     else []) /\
  connected_roots (calls o) = (if connected then [syncRootPath] else []) /\
  unregistered_roots (calls o) = (if undone then [syncRootPath] else []) /\
  disconnected_keys (calls o) = [].
Proof.
  cbv zeta. rewrite RegisterSyncRoot_unfold. cbv zeta.
  destruct (directory_ready host); cbn [negb andb]; [|repeat split].
  destruct (FAILED (CfRegisterSyncRoot_hr host)); cbn [negb andb];
    [repeat split|].
  destruct (FAILED (CfConnectSyncRoot_hr host)); repeat split.
Qed.

(** X7: what RegisterSyncRoot returns and leaves.  It succeeds exactly when
    the directory is there and both host calls succeed, and then returns
    S_OK whatever success code the host gave; otherwise it returns the
    status of the first step that failed, which is a failure (for the
    directory: when the last error is a nonzero DWORD).  The connection key
    is overwritten with what CfConnectSyncRoot left exactly when the
    connection was asked for, also when it failed; otherwise it is kept. *)
Theorem RegisterSyncRoot_result (p : CloudFilesProvider)
    (syncRootPath displayName : wstring) (host : RegisterHost) :
  let o := RegisterSyncRoot p syncRootPath displayName host in
  let asked := directory_ready host
               && negb (FAILED (CfRegisterSyncRoot_hr host)) in
  returned o
  = (if negb (directory_ready host)
     then HRESULT_FROM_WIN32 (CreateDirectoryW_LastError host)
     else if FAILED (CfRegisterSyncRoot_hr host)
          then CfRegisterSyncRoot_hr host
          else if FAILED (CfConnectSyncRoot_hr host)
               then CfConnectSyncRoot_hr host
               else S_OK) /\
  m_connectionKey (after o)
  = (if asked then CfConnectSyncRoot_key host else m_connectionKey p) /\
  (0 < CreateDirectoryW_LastError host < 2 ^ 32 ->
   (FAILED (returned o) = false <->
    directory_ready host = true /\
    FAILED (CfRegisterSyncRoot_hr host) = false /\
    FAILED (CfConnectSyncRoot_hr host) = false)).
Proof.
  cbv zeta. rewrite RegisterSyncRoot_unfold. cbv zeta.
  destruct (directory_ready host) eqn:Hd; cbn [negb andb returned after].
  - destruct (FAILED (CfRegisterSyncRoot_hr host)) eqn:Hr;
      cbn [negb andb returned after].
    + split; [reflexivity|]. split; [reflexivity|]. intros _. rewrite Hr.
      split; [discriminate | intros (_ & H & _); discriminate].
    + destruct (FAILED (CfConnectSyncRoot_hr host)) eqn:Hc;
        cbn [returned after]; (split; [reflexivity|]);
        (split; [reflexivity|]); intros _.
      * rewrite Hc.
        split; [discriminate | intros (_ & _ & H); discriminate].
      * split; auto.
  - split; [reflexivity|]. split; [reflexivity|].
    intros Herr. rewrite (HRESULT_FROM_WIN32_fails _ Herr).
    split; [discriminate | intros (H & _); discriminate].
Qed.

Lemma RegisterSyncRoot_asked_key (p : CloudFilesProvider)
    (path name : wstring) (host : RegisterHost) :
  directory_ready host = true ->
  FAILED (CfRegisterSyncRoot_hr host) = false ->
  m_connectionKey (after (RegisterSyncRoot p path name host))
  = CfConnectSyncRoot_key host /\
  disconnected_keys (calls (RegisterSyncRoot p path name host)) = [].
Proof.
  intros Hd Hr. rewrite RegisterSyncRoot_unfold. cbv zeta.
  rewrite Hd, Hr. cbn [negb].
  destruct (FAILED (CfConnectSyncRoot_hr host)); split; reflexivity.
Qed.

(** X8: RegisterSyncRoot called a second time, while the first connection
    is held, overwrites the stored key without disconnecting.  Whatever is
    done afterwards, the only key UnregisterSyncRoot hands to
    CfDisconnectSyncRoot is the second one: the first connection is never
    disconnected by the provider. *)
Theorem second_RegisterSyncRoot_forgets_first_connection
    (p : CloudFilesProvider) (path1 name1 path2 name2 path3 : wstring)
    (host1 host2 : RegisterHost) (hr : HRESULT) :
  directory_ready host1 = true ->
  FAILED (CfRegisterSyncRoot_hr host1) = false ->
  directory_ready host2 = true ->
  FAILED (CfRegisterSyncRoot_hr host2) = false ->
  let o1 := RegisterSyncRoot p path1 name1 host1 in
  let o2 := RegisterSyncRoot (after o1) path2 name2 host2 in
  let o3 := UnregisterSyncRoot (after o2) path3 hr in
  m_connectionKey (after o1) = CfConnectSyncRoot_key host1 /\
  m_connectionKey (after o2) = CfConnectSyncRoot_key host2 /\
  disconnected_keys (calls o1 ++ calls o2 ++ calls o3)
  = (if CfConnectSyncRoot_key host2 =? CF_CONNECTION_KEY_INVALID
     then [] else [CfConnectSyncRoot_key host2]) /\
  (CfConnectSyncRoot_key host1 <> CfConnectSyncRoot_key host2 ->
   ~ In (CfConnectSyncRoot_key host1)
       (disconnected_keys (calls o1 ++ calls o2 ++ calls o3))).
Proof.
  intros Hd1 Hr1 Hd2 Hr2. cbv zeta.
  destruct (RegisterSyncRoot_asked_key p path1 name1 host1 Hd1 Hr1)
    as [K1 D1].
  destruct (RegisterSyncRoot_asked_key
              (after (RegisterSyncRoot p path1 name1 host1))
              path2 name2 host2 Hd2 Hr2) as [K2 D2].
  assert (D3 : disconnected_keys
                 (calls (RegisterSyncRoot p path1 name1 host1)
                  ++ calls (RegisterSyncRoot
                              (after (RegisterSyncRoot p path1 name1 host1))
                              path2 name2 host2)
                  ++ calls (UnregisterSyncRoot
                              (after (RegisterSyncRoot
                                        (after (RegisterSyncRoot p path1 name1
                                                  host1))
                                        path2 name2 host2)) path3 hr))
               = (if CfConnectSyncRoot_key host2 =? CF_CONNECTION_KEY_INVALID
                  then [] else [CfConnectSyncRoot_key host2])).
  { rewrite !disconnected_keys_app, D1, D2, UnregisterSyncRoot_keys.
    rewrite disconnect_keys, K2. reflexivity. }
  split; [exact K1|]. split; [exact K2|]. split; [exact D3|].
  intros Hne. rewrite D3.
  destruct (CfConnectSyncRoot_key host2 =? CF_CONNECTION_KEY_INVALID);
    cbn; intuition congruence.
Qed.

(** X9: SetInSyncState and SetPinState.  With the file open, the state
    command goes to the host once, on the handle just opened, with the state
    asked for; the handle is closed once, after the command, whatever the
    host answered; the host's answer is returned.  With the file not opened,
    no state command is issued and nothing is closed, and the last error is
    returned as an HRESULT (a failure when it is a nonzero DWORD).  The
    provider object is not changed. *)
Theorem state_commands_open_and_close (p : CloudFilesProvider)
    (relativePath : wstring) (state : CF_IN_SYNC_STATE)
    (pinState : CF_PIN_STATE) (host : FileHost) :
  let o1 := SetInSyncState p relativePath state host in
  let o2 := SetPinState p relativePath pinState host in
  let h := CreateFileW_handle host in
  after o1 = p /\ after o2 = p /\
  (h <> INVALID_HANDLE_VALUE ->
     calls o1 = [Call_CreateFileW (GetFullPath p relativePath);
                 Call_CfSetInSyncState h state; Call_CloseHandle h] /\
     calls o2 = [Call_CreateFileW (GetFullPath p relativePath);
                 Call_CfSetPinState h pinState; Call_CloseHandle h] /\
     returned o1 = cfapi_hr host /\ returned o2 = cfapi_hr host) /\
  (h = INVALID_HANDLE_VALUE ->
     in_sync_calls (calls o1) = [] /\ pin_calls (calls o2) = [] /\
     closed_handles (calls o1) = [] /\ closed_handles (calls o2) = [] /\
     returned o1 = HRESULT_FROM_WIN32 (CreateFileW_LastError host) /\
     returned o2 = HRESULT_FROM_WIN32 (CreateFileW_LastError host) /\
     (0 < CreateFileW_LastError host < 2 ^ 32 ->
      FAILED (returned o1) = true /\ FAILED (returned o2) = true)).
Proof.
  cbv zeta. unfold SetInSyncState, SetPinState, GetFileHandle.
  destruct (Z.eqb_spec (CreateFileW_handle host) INVALID_HANDLE_VALUE)
    as [E|E]; cbn [after calls returned].
  - split; [reflexivity|]. split; [reflexivity|].
    split; [intros H; contradiction|]. intros _.
    repeat split; try reflexivity; apply HRESULT_FROM_WIN32_fails; assumption.
  - split; [reflexivity|]. split; [reflexivity|].
    split; [|intros H; contradiction]. intros _. repeat split.
Qed.



(** X11: which callbacks reach the notify sink.  Of the ten callbacks the
    table answers on the host's thread, four call the sink, once each, with
    the event's path and the names file_opened, file_closed, file_deleted
    and file_renamed, and only when a sink is set; validate, cancel, the two
    dehydrate notifications and the completions of delete and rename never
    call it.  Only validate acknowledges data: the range asked for, with
    status success, on the connection key of the event, with the requested
    offset in the transfer key. *)
Theorem callbacks_on_the_host_thread (type : CF_CALLBACK_TYPE)
    (p : CloudFilesProvider) (CallbackInfo : CF_CALLBACK_INFO)
    (ValidateData : CF_CALLBACK_PARAMETERS_ValidateData) :
  match callbackTable type p CallbackInfo ValidateData with
  | None => type = CF_CALLBACK_TYPE_FETCH_DATA
  | Some effects =>
      notifications effects
      = match m_notifyCallback p, sink_event type with
        | Some _, Some name => [(NormalizedPath CallbackInfo, name)]
        | _, _ => []
        end /\
      acknowledgements effects
      = match type with
        | CF_CALLBACK_TYPE_VALIDATE_DATA =>
            [({| op_Type := CF_OPERATION_TYPE_ACK_DATA;
                 op_ConnectionKey := ConnectionKey CallbackInfo;
                 op_TransferKey := vd_RequiredFileOffset ValidateData |},
              {| ack_CompletionStatus := STATUS_SUCCESS;
                 ack_Offset := vd_RequiredFileOffset ValidateData;
                 ack_Length := vd_RequiredLength ValidateData |})]
        | _ => []
        end
  end.
Proof.
  destruct type; cbn; try reflexivity;
    unfold OnNotifyFileOpenCompletion, OnNotifyFileCloseCompletion,
      OnNotifyDelete, OnNotifyRename, forward_to_sink;
    destruct (m_notifyCallback p); split; reflexivity.
Qed.

End MoreMemberProperties2.

(** ** More about the threads *)

Section MoreWorkerProperties.
Context {platform : Platform}.

Ltac open_system s :=
  destruct s as [[ini root key th mu q stop fcb ncb] out jn sub exe];
  cbn [provider output joining submitted executed m_initialized
       m_syncRootPath m_connectionKey m_workerThread m_queueMutex
       m_workQueue m_shouldStop m_fetchDataCallback m_notifyCallback] in *.

Ltac split_in H :=
  match type of H with
  | context [match ?x with _ => _ end] =>
      lazymatch x with
      | context [match _ with _ => _ end] => fail
      | _ => (is_var x; destruct x) || destruct x eqn:?
      end
  end.

Ltac unfold_step H :=
  unfold step, Initialize, Shutdown_stop, Shutdown_join, OnFetchData,
    worker_step, RegisterSyncRoot, UnregisterSyncRoot, CreateSyncRegistration,
    disconnect in H.

Ltac run_steps :=
  cbv beta iota zeta delta
    [run fold_left worker_round exec step worker_step Initialize
     Shutdown_stop Shutdown_join OnFetchData disconnect SetFetchDataCallback
     at_pc with_provider say with_joining note_submitted note_executed
     set_initialized set_syncRootPath set_connectionKey set_workerThread
     set_queueMutex set_workQueue set_shouldStop set_fetchDataCallback
     set_notifyCallback provider output joining submitted executed
     m_initialized m_syncRootPath m_connectionKey m_workerThread
     m_queueMutex m_workQueue m_shouldStop m_fetchDataCallback
     m_notifyCallback negb andb orb popped in_flight between_items].

Ltac cases_of_step Hstep :=
  unfold_step Hstep;
  match goal with
  | th : Thread |- _ => destruct th as [|[]| |]
  end;
  match goal with
  | a : Action |- _ => destruct a
  end;
  cbn in Hstep;
  repeat (split_in Hstep; cbn in Hstep; try discriminate);
  inversion Hstep; subst; cbn in *; subst;
  repeat match goal with
         | H : negb ?b = _ |- _ => is_var b; destruct b; try discriminate H;
                                   clear H
         end.

Lemma step_joining_owned (s s' : System) (a : Action) :
  step s a = Some s' -> joining_owned s -> joining_owned s'.
Proof.
  unfold joining_owned. intros Hstep Hinv. open_system s.
  cases_of_step Hstep; auto; try (intros E; discriminate E);
    try (intros E; destruct (Hinv E); split; congruence);
    try (intros _; split; reflexivity).
Qed.

Lemma step_stop_blocks_pop (s s' : System) (a : Action) :
  step s a = Some s' -> mutex_owned s -> stop_blocks_pop s ->
  stop_blocks_pop s'.
Proof.
  unfold stop_blocks_pop, mutex_owned. intros Hstep Hmu Hinv. open_system s.
  cases_of_step Hstep; auto; try (intros _; discriminate);
    try (intros E; discriminate E).
Qed.


Lemma transfer_keys_app (a b : list Event) :
  transfer_keys (a ++ b) = transfer_keys a ++ transfer_keys b.
Proof. unfold transfer_keys. rewrite transfers_app. apply map_app. Qed.

Lemma step_calls_follow_items (s s' : System) (a : Action) :
  step s a = Some s' -> thread_owned s -> calls_follow_items s ->
  calls_follow_items s'.
Proof.
  unfold calls_follow_items, thread_owned, fetched_paths, transfer_keys,
    transfers.
  intros Hstep Hown Hinv. open_system s.
  cases_of_step Hstep;
    try (destruct (Hown eq_refl); discriminate);
    rewrite ?flat_map_app, ?map_app;
    cbn [flat_map map app fst op_TransferKey transfer_opInfo];
    rewrite ?app_nil_r;
    try assumption;
    try (destruct Hinv as [H1 H2]; rewrite ?H1, ?H2;
         first [ split; reflexivity
               | eexists; eexists; split; reflexivity ]).
  destruct Hinv as [H1 H2]. exists [], [transferKey work].
  rewrite H1, H2, app_nil_r. split; reflexivity.
Qed.

Lemma exec_well_run (s : System) (a : Action) :
  well_run s -> well_run (exec s a).
Proof.
  intros (Hs & Hj & Hp & Hc).
  pose proof (exec_invariant s a Hs) as Hs'.
  destruct Hs as (Ho & Hm & Ha).
  unfold exec in *. destruct (step s a) as [s'|] eqn:E.
  - split; [exact Hs'|]. split; [eapply step_joining_owned; eauto|].
    split; [eapply step_stop_blocks_pop | eapply step_calls_follow_items];
      eauto.
  - split; [exact Hs'|]. split; [exact Hj|]. split; [exact Hp | exact Hc].
Qed.

Lemma run_well_run (schedule : list Action) (s : System) :
  well_run s -> well_run (run schedule s).
Proof.
  revert s. induction schedule as [|a rest IH]; intros s H; [exact H|].
  cbn. apply IH. apply exec_well_run. exact H.
Qed.

Lemma process_start_well_run : well_run process_start.
Proof.
  split; [apply process_start_invariant|].
  split; [intros E; discriminate E|].
  split; [intros E; discriminate E|]. split; reflexivity.
Qed.

Lemma reachable_well_run (before : list Action) :
  well_run (run before process_start).
Proof. apply run_well_run, process_start_well_run. Qed.

(** X12: Initialize is idempotent.  On an initialized provider it changes
    nothing; on a fresh provider it clears the stop flag, starts the worker
    at line 38 and sets m_initialized, and leaves the queue, the callbacks
    and the connection as they are; called again, it does nothing. *)
Theorem Initialize_idempotent (s : System) :
  exec (exec s Act_Initialize) Act_Initialize = exec s Act_Initialize /\
  (m_initialized (provider s) = true -> exec s Act_Initialize = s) /\
  (m_initialized (provider s) = false ->
   m_workerThread (provider s) = NotJoinable ->
   provider (exec s Act_Initialize)
   = set_initialized
       (set_workerThread (set_shouldStop (provider s) false)
          (Running pc_outer_test)) true /\
   executed (exec s Act_Initialize) = executed s /\
   submitted (exec s Act_Initialize) = submitted s).
Proof.
  open_system s. split; [|split].
  - destruct th as [|[]| |], ini; reflexivity.
  - intros ->. destruct th as [|[]| |]; reflexivity.
  - intros -> ->. repeat split.
Qed.

(** X13: on a provider that is not initialized, Shutdown returns at once:
    in every reachable state with m_initialized false, both halves of
    Shutdown leave everything as it is.  In particular a connection made by
    RegisterSyncRoot without Initialize is not disconnected by Shutdown. *)
Theorem Shutdown_without_Initialize_does_nothing (before : list Action) :
  let s := run before process_start in
  m_initialized (provider s) = false ->
  run [Act_Shutdown_stop; Act_Shutdown_join] s = s /\
  m_connectionKey
    (provider (run [Act_Shutdown_stop; Act_Shutdown_join] s))
  = m_connectionKey (provider s) /\
  disconnected_keys (output (run [Act_Shutdown_stop; Act_Shutdown_join] s))
  = disconnected_keys (output s).
Proof.
  intros s Hini.
  destruct (reachable_well_run before) as (_ & Hj & _). fold s in Hj.
  assert (Hjn : joining s = false).
  { destruct (joining s) eqn:E; [|reflexivity].
    destruct (Hj E) as [H _]. congruence. }
  assert (H : run [Act_Shutdown_stop; Act_Shutdown_join] s = s).
  { clearbody s. open_system s. subst.
    destruct th as [|[]| |]; reflexivity. }
  rewrite H. auto.
Qed.


(** X16: the worker does not hold the queue mutex while an item runs.  In
    every reachable state in which the worker is inside work(), the mutex
    is free and a fetch request is not blocked: it pushes its item at the
    back of the queue at once when a fetch source is set, and does nothing
    but log otherwise; the worker stays where it is. *)
Theorem fetch_request_not_blocked_while_item_runs
    (before : list Action) (CallbackInfo : CF_CALLBACK_INFO)
    (FetchData : CF_CALLBACK_PARAMETERS_FetchData) :
  let s := run before process_start in
  (exists work, m_workerThread (provider s) = Running (pc_work work) \/
                exists data,
                  m_workerThread (provider s)
                  = Running (pc_transfer work data)) ->
  m_queueMutex (provider s) = false /\
  exists s',
    step s (Act_OnFetchData CallbackInfo FetchData) = Some s' /\
    m_workerThread (provider s') = m_workerThread (provider s) /\
    executed s' = executed s /\
    m_workQueue (provider s')
    = match m_fetchDataCallback (provider s) with
      | Some _ =>
          m_workQueue (provider s)
          ++ [{| relativePath := NormalizedPath CallbackInfo;
                 transferKey := RequiredFileOffset FetchData |}]
      | None => m_workQueue (provider s)
      end.
Proof.
  intros s Hrun.
  destruct (reachable_well_run before) as ((_ & Hmu & _) & _).
  fold s in Hmu. clearbody s. unfold mutex_owned in Hmu. open_system s.
  destruct Hrun as (work & [H | (data & H)]); subst th; cbn in Hmu;
    subst mu; (split; [reflexivity|]);
    destruct fcb; eexists; (split; [reflexivity|]); cbn; auto.
Qed.

(** One step under a stop flag that is set: the flag stays set, the queue
    is only lengthened, and nothing is called but the item already
    popped. *)
Lemma stop_keeps_queue_step (s : System) (a : Action) :
  well_run s ->
  m_shouldStop (provider s) = true ->
  is_Initialize a = false ->
  m_shouldStop (provider (exec s a)) = true /\
  (exists later,
     m_workQueue (provider (exec s a)) = m_workQueue (provider s) ++ later) /\
  executed (exec s a) ++ popped (exec s a) = executed s ++ popped s.
Proof.
  intros ((Hown & _ & _) & _ & Hpop & _) Hstop Ha.
  unfold exec. destruct (step s a) as [s'|] eqn:Hstep;
    [|split; [exact Hstop|]; split; [exists []; symmetry; apply app_nil_r
                                    |reflexivity]].
  unfold stop_blocks_pop, thread_owned, popped in *. open_system s.
  subst stop.
  cases_of_step Hstep; try discriminate Ha;
    try (exfalso; apply Hpop; reflexivity);
    try (destruct (Hown eq_refl); discriminate);
    (split; [reflexivity|]);
    (split; [first [ exists []; cbn; rewrite ?app_nil_r; reflexivity
                   | eexists; reflexivity ]|]);
    rewrite <- ?app_assoc; cbn; rewrite ?app_nil_r; reflexivity.
Qed.

(** X14: once the stop flag is set, the worker takes nothing more from the
    queue.  From every reachable state with m_shouldStop set, under every
    schedule without a call of Initialize (worker steps, fetch requests, the
    halves of Shutdown, RegisterSyncRoot, UnregisterSyncRoot,
    SetFetchDataCallback): the flag stays set, the items queued stay queued
    in place, with later requests behind them, and no item is called except
    the one the worker had already popped. *)
Theorem stop_flag_keeps_queued_items (before rest : list Action) :
  let s := run before process_start in
  m_shouldStop (provider s) = true ->
  forallb (fun a => negb (is_Initialize a)) rest = true ->
  let s' := run rest s in
  m_shouldStop (provider s') = true /\
  (exists later,
     m_workQueue (provider s') = m_workQueue (provider s) ++ later) /\
  executed s' ++ popped s' = executed s ++ popped s.
Proof.
  intros s Hstop Hrest.
  pose proof (reachable_well_run before) as Hw. fold s in Hw. clearbody s.
  revert s Hw Hstop.
  induction rest as [|a rest IH]; intros s Hw Hstop.
  - cbn. split; [exact Hstop|]. split; [|reflexivity].
    exists []. symmetry. apply app_nil_r.
  - cbn in Hrest. apply andb_prop in Hrest as [Ha Hrest].
    apply negb_true_iff in Ha.
    destruct (stop_keeps_queue_step s a Hw Hstop Ha) as (S1 & (l1 & Q1) & E1).
    destruct (IH Hrest (exec s a) (exec_well_run s a Hw) S1)
      as (S2 & (l2 & Q2) & E2).
    cbn zeta in *. cbn [run fold_left]. fold (run rest (exec s a)).
    split; [exact S2|]. split.
    + exists (l1 ++ l2). rewrite Q2, Q1, app_assoc. reflexivity.
    + rewrite E2. exact E1.
Qed.





(** X18: the closure reads m_connectionKey when it issues the transfer,
    not when the request arrives.  If UnregisterSyncRoot runs while an item
    is inside work(), between its fetch and its transfer, the transfer goes
    to the host with CF_CONNECTION_KEY_INVALID as connection key. *)
Theorem transfer_after_UnregisterSyncRoot_uses_invalid_key
    (s : System) (work : WorkItem) (data : list BYTE)
    (syncRootPath : wstring) (CfUnregisterSyncRoot_hr CfExecute_hr : HRESULT) :
  m_workerThread (provider s) = Running (pc_transfer work data) ->
  let s1 := exec s (Act_UnregisterSyncRoot syncRootPath
                      CfUnregisterSyncRoot_hr) in
  let s2 := exec s1 (Act_Worker CfExecute_hr) in
  transfers (output s1) = transfers (output s) /\
  transfers (output s2)
  = transfers (output s)
    ++ [({| op_Type := CF_OPERATION_TYPE_TRANSFER_DATA;
            op_ConnectionKey := CF_CONNECTION_KEY_INVALID;
            op_TransferKey := transferKey work |},
         transfer_opParams data)].
Proof.
  intros Hth. open_system s. subst th. cbv zeta.
  unfold exec, step. cbn [provider m_workerThread].
  unfold UnregisterSyncRoot, disconnect. cbn [m_connectionKey].
  destruct (Z.eqb_spec key CF_CONNECTION_KEY_INVALID) as [E|E];
    cbn [negb]; destruct (FAILED CfUnregisterSyncRoot_hr);
    run_steps; cbn [after calls]; destruct (FAILED CfExecute_hr);
    rewrite ?transfers_app; cbn; rewrite ?app_nil_r; subst;
    split; reflexivity.
Qed.

End MoreWorkerProperties.

(** ** The rest of the code on concrete inputs *)

Lemma FileTime_round_trip_witness :
  FileTimeToDateTime (DateTimeToFileTime a_time) = 1700000000123456700.
Proof.
  destruct (FileTime_round_trip a_time) as (H & _ & _).
  - unfold a_time. lia.
  - rewrite H. reflexivity.
Defined.

Lemma DateTimeToFileTime_top_bit_set_witness :
  2 ^ 31 <= dwHighDateTime (DateTimeToFileTime a_time) < 2 ^ 32 /\
  FILETIME_value (DateTimeToFileTime a_time) = 11661473600001234567.
Proof.
  destruct (DateTimeToFileTime_top_bit_set a_time) as (H1 & _ & H2 & _).
  - unfold a_time. lia.
  - split; [exact H1|]. rewrite H2. reflexivity.
Defined.

Example CreatePlaceholder_second_allocation_fails :
  let o := CreatePlaceholder (platform := build_x64) connected_provider
             report_pdf a_FILE_BASIC_INFO 1234
             {| HeapAlloc_fileName := Some 4096;
                HeapAlloc_fileIdentity := None |} S_OK in
  returned o = E_OUTOFMEMORY /\
  calls o = [WcoutStr "Creating placeholder: " report_pdf;
             Call_HeapAlloc 32; Call_HeapAlloc 8; Call_HeapFree 4096].
Proof. vm_compute. auto. Qed.

Lemma placeholder_identity_is_the_hash_witness :
  let info (path : wstring) :=
    snd (fst (CreatePlaceholderInfo (platform := build_x64) path
                a_FILE_BASIC_INFO 1234 (heap_gives 4096 8192))) in
  option_map snd (FileIdentity (info report_pdf))
  = option_map snd (FileIdentity (info notes_txt))
  <-> hasher (Platform := build_x64) report_pdf mod 2 ^ 64
      = hasher (Platform := build_x64) notes_txt mod 2 ^ 64.
Proof.
  cbv zeta.
  apply (proj2 (@placeholder_identity_is_the_hash build_x64
                  report_pdf notes_txt a_FILE_BASIC_INFO a_FILE_BASIC_INFO
                  1234 1234 (heap_gives 4096 8192) (heap_gives 4096 8192)
                  _ _ [Call_HeapAlloc 32; Call_HeapAlloc 8]
                  [Call_HeapAlloc 30; Call_HeapAlloc 8]
                  eq_refl eq_refl)).
Defined.

Lemma RegisterSyncRoot_result_witness :
  FAILED (returned (RegisterSyncRoot connected_provider "Z:\nowhere"
                      "Main Booth Drive" no_directory)) = false
  <-> directory_ready no_directory = true /\
      FAILED (CfRegisterSyncRoot_hr no_directory) = false /\
      FAILED (CfConnectSyncRoot_hr no_directory) = false.
Proof.
  destruct (RegisterSyncRoot_result connected_provider "Z:\nowhere"
              "Main Booth Drive" no_directory) as (_ & _ & H).
  apply H. vm_compute. split; [reflexivity | reflexivity].
Defined.

Example RegisterSyncRoot_connection_refused :
  let host := {| CreateDirectoryW_ok := true; CreateDirectoryW_LastError := 0;
                 CfRegisterSyncRoot_hr := S_OK; CfConnectSyncRoot_hr := E_FAIL;
                 CfConnectSyncRoot_key := 0 |} in
  let o := RegisterSyncRoot (new_CloudFilesProvider (platform := build_x64))
             drive_root "Main Booth Drive" host in
  returned o = E_FAIL /\
  unregistered_roots (calls o) = [drive_root] /\
  connected_roots (calls o) = [drive_root].
Proof. vm_compute. auto. Qed.

Lemma second_RegisterSyncRoot_forgets_first_connection_witness :
  let o1 := RegisterSyncRoot (new_CloudFilesProvider (platform := build_x64))
              drive_root "Main Booth Drive" friendly_host in
  let o2 := RegisterSyncRoot (after o1) drive_root "Main Booth Drive"
              second_host in
  let o3 := UnregisterSyncRoot (platform := build_x64) (after o2) drive_root
              S_OK in
  disconnected_keys (calls o1 ++ calls o2 ++ calls o3) = [42] /\
  ~ In 41 (disconnected_keys (calls o1 ++ calls o2 ++ calls o3)).
Proof.
  cbv zeta.
  destruct (@second_RegisterSyncRoot_forgets_first_connection build_x64
              (new_CloudFilesProvider (platform := build_x64))
              drive_root "Main Booth Drive" drive_root "Main Booth Drive"
              drive_root friendly_host second_host S_OK)
    as (_ & _ & H3 & H4).
  - reflexivity.
  - reflexivity.
  - reflexivity.
  - reflexivity.
  - split; [exact H3|]. apply H4. discriminate.
Defined.

Lemma state_commands_open_and_close_witness :
  calls (SetPinState connected_provider report_pdf CF_PIN_STATE_PINNED
           (file_opens S_OK))
  = [Call_CreateFileW "C:\Users\me\Main Booth Drive\docs/report.pdf";
     Call_CfSetPinState 100 CF_PIN_STATE_PINNED; Call_CloseHandle 100] /\
  FAILED (returned (SetInSyncState connected_provider report_pdf
                      CF_IN_SYNC_STATE_IN_SYNC file_missing)) = true.
Proof.
  split.
  - destruct (state_commands_open_and_close connected_provider report_pdf
                CF_IN_SYNC_STATE_IN_SYNC CF_PIN_STATE_PINNED (file_opens S_OK))
      as (_ & _ & H & _).
    destruct H as (_ & H & _); [discriminate | exact H].
  - destruct (state_commands_open_and_close connected_provider report_pdf
                CF_IN_SYNC_STATE_IN_SYNC CF_PIN_STATE_PINNED file_missing)
      as (_ & _ & _ & H).
    destruct H as (_ & _ & _ & _ & _ & _ & H); [reflexivity|].
    destruct H as [H _]; [split; reflexivity | exact H].
Defined.


Example notify_sink_hears_delete_not_its_completion :
  let p := SetNotifyCallback connected_provider (Some 7%nat) in
  let info := fst (fetch_event report_pdf 7 0) in
  let vd := {| vd_RequiredFileOffset := 0; vd_RequiredLength := 4 |} in
  option_map notifications
    (callbackTable CF_CALLBACK_TYPE_NOTIFY_DELETE p info vd)
  = Some [(report_pdf, "file_deleted")] /\
  option_map notifications
    (callbackTable CF_CALLBACK_TYPE_NOTIFY_DELETE_COMPLETION p info vd)
  = Some [].
Proof. vm_compute. auto. Qed.

Lemma Initialize_idempotent_witness :
  m_workerThread
    (provider (exec (platform := build_x64)
                 (process_start (platform := build_x64)) Act_Initialize))
  = Running pc_outer_test.
Proof.
  destruct (@Initialize_idempotent build_x64
              (process_start (platform := build_x64))) as (_ & _ & H).
  destruct H as (H & _); [reflexivity | reflexivity |].
  rewrite H. reflexivity.
Defined.

Lemma Shutdown_without_Initialize_does_nothing_witness :
  let s := run (platform := build_x64)
             [Act_RegisterSyncRoot drive_root "Main Booth Drive" friendly_host]
             (process_start (platform := build_x64)) in
  m_connectionKey (provider s) = 41 /\
  m_connectionKey
    (provider (run (platform := build_x64)
                 [Act_Shutdown_stop; Act_Shutdown_join] s)) = 41.
Proof.
  cbv zeta. split; [reflexivity|].
  destruct (@Shutdown_without_Initialize_does_nothing build_x64
              [Act_RegisterSyncRoot drive_root "Main Booth Drive"
                 friendly_host]) as (_ & H & _).
  - reflexivity.
  - rewrite H. reflexivity.
Defined.

Lemma stop_flag_keeps_queued_items_witness :
  let s := run (platform := build_x64)
             (started good_source ++ two_requests ++ worker_runs 4
              ++ [Act_Shutdown_stop])
             (process_start (platform := build_x64)) in
  let s' := run (platform := build_x64)
              (worker_runs 6
               ++ [Act_Shutdown_join; Act_fetch notes_txt 9 0]) s in
  executed s' ++ popped s' = executed s ++ popped s.
Proof.
  destruct (@stop_flag_keeps_queued_items build_x64
              (started good_source ++ two_requests ++ worker_runs 4
               ++ [Act_Shutdown_stop])
              (worker_runs 6 ++ [Act_Shutdown_join; Act_fetch notes_txt 9 0]))
    as (_ & _ & H).
  - reflexivity.
  - reflexivity.
  - exact H.
Defined.


Lemma fetch_request_not_blocked_while_item_runs_witness :
  m_queueMutex (provider (first_item_popped good_source)) = false.
Proof.
  destruct (@fetch_request_not_blocked_while_item_runs build_x64
              (started good_source ++ two_requests ++ worker_runs 4)
              (fst (fetch_event notes_txt 9 0))
              (snd (fetch_event notes_txt 9 0))) as [H _].
  - exists report_item. left. reflexivity.
  - exact H.
Defined.

Lemma transfer_after_UnregisterSyncRoot_uses_invalid_key_witness :
  let s := run (platform := build_x64) (worker_runs 1)
             (first_item_popped good_source) in
  transfers
    (output (run (platform := build_x64)
               [Act_UnregisterSyncRoot drive_root S_OK; Act_Worker S_OK] s))
  = [({| op_Type := CF_OPERATION_TYPE_TRANSFER_DATA;
         op_ConnectionKey := 0; op_TransferKey := 0 |},
      transfer_opParams some_bytes)].
Proof.
  cbv zeta.
  destruct (@transfer_after_UnregisterSyncRoot_uses_invalid_key build_x64
              (run (platform := build_x64) (worker_runs 1)
                 (first_item_popped good_source))
              report_item some_bytes drive_root S_OK S_OK) as [_ H].
  - reflexivity.
  - cbn [run fold_left]. rewrite H. reflexivity.
Defined.
